(** * Glitch Object Analyzer: a shallow embedding of [analyze_objects.py]

    The development follows the Python source function by function.
    Python values are modelled as follows.

    - [str] is [string]; characters are code points below 256.
    - [int] is [Z] (Python integers are unbounded).
    - [None]-or-value is [option].
    - [dict] is an insertion-ordered association list with unique keys,
      which is what CPython's [dict] is for iteration purposes.
    - An [xml.etree.ElementTree.Element] is a rose tree carrying a tag, an
      attribute dictionary, the optional text and the list of children.
    - A call that may raise returns a [result]: either [Return v] or
      [Raise e].
    - [print] appends a line to an explicit output log.

    What the interpreter and its libraries decide (the XML parser applied to
    a file, the conversion of a timestamp to a calendar date, the limit on
    the number of digits [int] accepts) is a parameter of the development. *)

From Stdlib Require Import List String Ascii ZArith Arith Bool Lia.
From Stdlib Require Import DecimalString.
From Stdlib Require Import Sorting.Sorted Sorting.Permutation.
Import ListNotations.

Local Open Scope string_scope.
Local Open Scope list_scope.

Set Implicit Arguments.
Set Warnings "-register-all".

(** ** Exceptions and results *)

(** The exception classes the program can meet.  All of them derive from
    [Exception], so the handler of [load_objects] catches every one. *)
Inductive exn : Type :=
| XMLParseError   (* xml.etree.ElementTree.ParseError *)
| OSError         (* unreadable file, failing localtime() *)
| ValueError      (* int() on a bad literal, year out of range *)
| TypeError       (* int(None) *)
| OverflowError.  (* timestamp outside the platform's time_t *)

Inductive result (A : Type) : Type :=
| Return (a : A)
| Raise (e : exn).

Arguments Return {A} a.
Arguments Raise {A} e.

Definition bind {A B : Type} (r : result A) (k : A -> result B) : result B :=
  match r with
  | Return a => k a
  | Raise e => Raise e
  end.

Notation "x <- r ;; k" := (bind r (fun x => k))
  (at level 61, r at next level, right associativity).

Definition raises {A : Type} (r : result A) : bool :=
  match r with
  | Return _ => false
  | Raise _ => true
  end.

(** ** Python strings *)

Module PyStr.

(** [s.startswith(p)] *)
Definition startswith (s p : string) : bool := String.prefix p s.

(** [s.endswith(p)] *)
Definition endswith (s p : string) : bool :=
  let n := String.length s in
  let m := String.length p in
  (m <=? n)%nat && String.eqb (substring (n - m) m s) p.

(** [s[:-k]] *)
Definition drop_last (k : nat) (s : string) : string :=
  substring 0 (String.length s - k) s.

(** [str(x)] for [x] a string or [None], as an f-string formats it. *)
Definition format (x : option string) : string :=
  match x with
  | Some s => s
  | None => "None"
  end.

(** Whitespace as [int] sees it: TAB, LF, VT, FF, CR and SPACE, and among
    the code points from 128 to 255 the two Unicode spaces NEL and NBSP. *)
Definition isspace (c : ascii) : bool :=
  let n := nat_of_ascii c in
  ((9 <=? n) && (n <=? 13) || (n =? 32) || (n =? 133) || (n =? 160))%nat.

Definition digit_value (c : ascii) : option Z :=
  let n := nat_of_ascii c in
  if ((48 <=? n) && (n <=? 57))%nat then Some (Z.of_nat (n - 48)) else None.

Fixpoint lstrip (s : string) : string :=
  match s with
  | String c s' => if isspace c then lstrip s' else s
  | EmptyString => s
  end.

Fixpoint all_space (s : string) : bool :=
  match s with
  | String c s' => isspace c && all_space s'
  | EmptyString => true
  end.

(** The digit scanner of [PyLong_FromString] in base 10: digits, with
    single underscores allowed between two digits.  It returns the value
    read, the number of digits and the unread rest. *)
Fixpoint scan_digits (s : string) (acc : Z) (ndigits : nat) (prev_us : bool)
  : option (Z * nat * string) :=
  match s with
  | EmptyString => if prev_us then None else Some (acc, ndigits, s)
  | String c s' =>
      match digit_value c with
      | Some d => scan_digits s' (10 * acc + d)%Z (S ndigits) false
      | None =>
          if Ascii.eqb c "_" then
            if prev_us then None else scan_digits s' acc ndigits true
          else if prev_us then None else Some (acc, ndigits, s)
      end
  end.

(** [int(s)] for a string [s], [None] standing for [ValueError].
    [max_str_digits] is [sys.get_int_max_str_digits()]: [0] disables the
    limit (and is the behaviour of interpreters that have none), CPython's
    default is [4300]. *)
Definition int (max_str_digits : nat) (s : string) : option Z :=
  let s1 := lstrip s in
  let '(neg, s2) :=
    match s1 with
    | String "+" r => (false, r)
    | String "-" r => (true, r)
    | _ => (false, s1)
    end in
  match s2 with
  | EmptyString => None
  | String c _ =>
      match digit_value c with
      | None => None
      | Some _ =>
          match scan_digits s2 0 0 false with
          | None => None
          | Some (v, n, rest) =>
              if ((0 <? max_str_digits) && (max_str_digits <? n))%nat then None
              else if all_space rest then Some (if neg then (- v)%Z else v)
              else None
          end
      end
  end.

End PyStr.

(** ** Python dictionaries

    Insertion-ordered, keyed by strings.  Assigning to a key that is
    present replaces the value in place and keeps the key's position. *)

Module PyDict.

Section Dict.
Variable V : Type.

Definition t : Type := list (string * V).

Definition empty : t := [].

(** [d[k] = v] *)
Fixpoint setitem (k : string) (v : V) (d : t) : t :=
  match d with
  | [] => [(k, v)]
  | (k', v') :: d' =>
      if String.eqb k k' then (k, v) :: d' else (k', v') :: setitem k v d'
  end.

(** [d.get(k)] *)
Fixpoint get (k : string) (d : t) : option V :=
  match d with
  | [] => None
  | (k', v') :: d' => if String.eqb k k' then Some v' else get k d'
  end.

(** [k in d], for a key that may be [None]: the keys are strings, so
    [None] is never one of them. *)
Definition lookup (k : option string) (d : t) : option V :=
  match k with
  | Some s => get s d
  | None => None
  end.

Definition keys (d : t) : list string := map fst d.

(** [d.values()] *)
Definition values (d : t) : list V := map snd d.

(** [len(d)] *)
Definition len (d : t) : nat := List.length d.

End Dict.

Arguments empty {V}.

End PyDict.

(** ** ElementTree elements *)

Inductive Element : Type :=
  Elem (tag : string) (attrib : list (string * string))
       (text : option string) (children : list Element).

Module ET.

Definition tag (e : Element) : string :=
  let 'Elem t _ _ _ := e in t.
Definition attrib (e : Element) : list (string * string) :=
  let 'Elem _ a _ _ := e in a.
Definition text (e : Element) : option string :=
  let 'Elem _ _ x _ := e in x.
(** [list(e)]: the direct children, in document order. *)
Definition children (e : Element) : list Element :=
  let 'Elem _ _ _ c := e in c.

(** [e.get(key)] *)
Definition get (e : Element) (key : string) : option string :=
  PyDict.get key (attrib e).

(** [e.get(key, default)] *)
Definition get_default (e : Element) (key default : string) : string :=
  match get e key with
  | Some v => v
  | None => default
  end.

(** [e.iter()]: [e] and all its descendants, in document order. *)
Fixpoint iter (e : Element) : list Element :=
  let 'Elem _ _ _ cs := e in
  e :: (fix iter_all (l : list Element) : list Element :=
          match l with
          | [] => []
          | c :: l' => iter c ++ iter_all l'
          end) cs.

(** The elements [.//] ranges over: every element below [e], [e] itself
    excluded, in document order. *)
Definition descendants (e : Element) : list Element := flat_map iter (children e).

Definition attr_is (key value : string) (e : Element) : bool :=
  match get e key with
  | Some v => String.eqb v value
  | None => false
  end.

(** [e.findall('.//T')] *)
Definition findall_desc (e : Element) (T : string) : list Element :=
  filter (fun d => String.eqb (tag d) T) (descendants e).

(** [e.find('.//T[@id="I"]')]: the first match in document order. *)
Definition find_desc_id (e : Element) (T I : string) : option Element :=
  hd_error (filter (attr_is "id" I) (findall_desc e T)).

End ET.

(** ** Python lists: [list.sort(key=...)]

    [list.sort] is a stable sort.  A stable sort is determined by its
    specification, so it is modelled by the simplest stable algorithm:
    insertion from the right, an element going before the first element
    whose key is not smaller. *)

Module PyList.

Section Sort.
Variable A : Type.
Variable key : A -> Z.

Fixpoint insert (x : A) (l : list A) : list A :=
  match l with
  | [] => [x]
  | y :: l' => if (key x <=? key y)%Z then x :: l else y :: insert x l'
  end.

Fixpoint sort (l : list A) : list A :=
  match l with
  | [] => []
  | x :: l' => insert x (sort l')
  end.

Definition key_le (a b : A) : Prop := (key a <= key b)%Z.

(** The elements of [l] whose key is [k], in the order of [l]. *)
Definition with_key (k : Z) (l : list A) : list A :=
  filter (fun a => (key a =? k)%Z) l.

End Sort.

End PyList.

(** ** The analyzer *)

(** The dictionary [parse_object] returns. *)
Record Obj : Type := mkObj {
  tsid : option string;       (* 'tsid': root.get('tsid') *)
  label : string;             (* 'label' *)
  class : string;             (* 'class' *)
  timestamp : Z;              (* 'timestamp' *)
  container : option string;  (* 'container': root.get('container') *)
  xml : Element               (* 'xml': root *)
}.

(** A line [print(f"Error loading {filename}: {e}")] writes. *)
Record ErrorLine : Type := ErrorLoading {
  err_filename : string;
  err_exception : exn
}.

(** The instance: [self.objects].  [self.data_dir] is part of the file
    system the parser reads, see [ET_parse] below. *)
Record GlitchObjectAnalyzer : Type := mkAnalyzer {
  objects : PyDict.t Obj
}.

(** The category keys of [get_object_counts]. *)
Definition categories : list string :=
  ["Bags"; "Data Containers"; "Players"; "Groups"; "Trees/Plants"; "Items"].

(** The [if]/[elif] chain of [get_object_counts] (lines 64-75): the key
    whose counter the object of class [class_type] increments. *)
Definition classify (class_type : string) : string :=
  if PyStr.startswith class_type "bag_" then "Bags"
  else if String.eqb class_type "dc" then "Data Containers"
  else if String.eqb class_type "human" then "Players"
  else if String.eqb class_type "group" then "Groups"
  else if PyStr.startswith class_type "trant_" then "Trees/Plants"
  else "Items".

(** [counts[k] += 1] on a [defaultdict(int)]. *)
Definition increment (k : string) (counts : PyDict.t nat) : PyDict.t nat :=
  PyDict.setitem k
    (match PyDict.get k counts with Some n => n | None => 0 end + 1) counts.

(** [get_object_counts] *)
Definition get_object_counts (self : GlitchObjectAnalyzer) : PyDict.t nat :=
  fold_left (fun counts obj => increment (classify (class obj)) counts)
            (PyDict.values (objects self)) PyDict.empty.

(** [find_containers].  The argument is whatever the caller holds as an
    identifier: [main] passes [player['tsid']], which is [None] when the
    player's root element has no [tsid] attribute. *)
Definition option_string_eqb (a b : option string) : bool :=
  match a, b with
  | Some x, Some y => String.eqb x y
  | None, None => true
  | _, _ => false
  end.

Definition find_containers (self : GlitchObjectAnalyzer)
    (container_tsid : option string) : list Obj :=
  filter (fun obj => option_string_eqb (container obj) container_tsid)
         (PyDict.values (objects self)).

(** [[obj for obj in analyzer.objects.values() if obj['class'] == 'human']]
    of [main]. *)
Definition players (self : GlitchObjectAnalyzer) : list Obj :=
  filter (fun obj => String.eqb (class obj) "human")
         (PyDict.values (objects self)).

(** The objects the [summary] command of [main] lists as connected to the
    main player (lines 194-200); [None] when there is no player. *)
Definition summary_contained (self : GlitchObjectAnalyzer) : option (list Obj) :=
  match players self with
  | [] => None
  | player :: _ => Some (find_containers self (tsid player))
  end.

(** A function that returns either a message or a value. *)
Inductive answer (A : Type) : Type :=
| Message (s : string)
| Value (a : A).

Arguments Message {A} s.
Arguments Value {A} a.

Section Analyzer.

(** The calendar dates of [datetime], and [datetime.fromtimestamp] on an
    integer number of seconds and on [ms / 1000] (a float). *)
Variable datetime : Type.
Variable fromtimestamp : Z -> result datetime.
Variable fromtimestamp_ms : Z -> result datetime.

(** [sys.get_int_max_str_digits()] *)
Variable max_str_digits : nat.

(** [ET.parse(os.path.join(self.data_dir, filename)).getroot()] *)
Variable ET_parse : string -> result Element.

(** [int(x)] for [x] a string or [None]. *)
Definition int_of (x : option string) : result Z :=
  match x with
  | None => Raise TypeError
  | Some s =>
      match PyStr.int max_str_digits s with
      | Some n => Return n
      | None => Raise ValueError
      end
  end.

(** [int(root.get('ts', 0))] *)
Definition int_ts (root : Element) : result Z :=
  match ET.get root "ts" with
  | None => Return 0%Z
  | Some s => int_of (Some s)
  end.

(** [parse_object] *)
Definition parse_object (filename : string) : result Obj :=
  root <- ET_parse filename ;;
  ts <- int_ts root ;;
  Return {| tsid := ET.get root "tsid";
            label := ET.get_default root "label" "Unknown";
            class := ET.get_default root "class_tsid" "unknown";
            timestamp := ts;
            container := ET.get root "container";
            xml := root |}.

(** One iteration of the loop of [load_objects], on the instance and the
    output written so far. *)
Definition load_step (st : GlitchObjectAnalyzer * list ErrorLine)
    (filename : string) : GlitchObjectAnalyzer * list ErrorLine :=
  let '(self, out) := st in
  if PyStr.endswith filename ".xml" then
    let tsid := PyStr.drop_last 4 filename in
    match parse_object filename with
    | Return obj => (mkAnalyzer (PyDict.setitem tsid obj (objects self)), out)
    | Raise e => (self, out ++ [ErrorLoading filename e])
    end
  else st.

(** [load_objects], [listing] being [os.listdir(self.data_dir)]. *)
Definition load_objects (listing : list string)
    (st : GlitchObjectAnalyzer * list ErrorLine)
  : GlitchObjectAnalyzer * list ErrorLine :=
  fold_left load_step listing st.

(** [GlitchObjectAnalyzer(data_dir)]: [__init__] *)
Definition init (listing : list string) : GlitchObjectAnalyzer * list ErrorLine :=
  load_objects listing (mkAnalyzer PyDict.empty, []).

(** What [analyze_player] returns when the player is loaded. *)
Record PlayerReport : Type := mkPlayerReport {
  pr_name : string;            (* 'name' *)
  pr_tsid : string;            (* 'tsid' *)
  pr_energy : string;          (* 'energy' *)
  pr_mood : string;            (* 'mood' *)
  pr_tank : option string;     (* 'tank': a string, or None for an empty element *)
  pr_references : nat;         (* 'references' *)
  pr_last_update : datetime    (* 'last_update' *)
}.

(** [f"{prop.text}/{prop.get('top')}"] *)
Definition format_stat (prop : Element) : string :=
  PyStr.format (ET.text prop) ++ "/" ++ PyStr.format (ET.get prop "top").

(** Lines 86-100 of [analyze_player]: the energy, mood and tank read from
    the root element [xml]. *)
Definition metabolics_of (xml : Element) : string * string * option string :=
  let metabolics := ET.find_desc_id xml "object" "metabolics" in
  match metabolics with
  | Some metabolics =>
      let energy_prop := ET.find_desc_id metabolics "prop" "energy" in
      let mood_prop := ET.find_desc_id metabolics "prop" "mood" in
      let tank_elem := ET.find_desc_id metabolics "int" "tank" in
      (match energy_prop with Some p => format_stat p | None => "Unknown" end,
       match mood_prop with Some p => format_stat p | None => "Unknown" end,
       match tank_elem with Some e => ET.text e | None => Some "Unknown" end)
  | None => ("Unknown", "Unknown", Some "Unknown")
  end.

(** [analyze_player] *)
Definition analyze_player (self : GlitchObjectAnalyzer) (player_tsid : string)
  : result (answer PlayerReport) :=
  match PyDict.get player_tsid (objects self) with
  | None => Return (Message ("Player " ++ player_tsid ++ " not found"))
  | Some player =>
      let xml := xml player in
      let '(energy, mood, tank) := metabolics_of xml in
      let references := ET.findall_desc xml "objref" in
      let ref_count := List.length references in
      last_update <- fromtimestamp_ms (timestamp player) ;;
      Return (Value {| pr_name := label player;
                       pr_tsid := player_tsid;
                       pr_energy := energy;
                       pr_mood := mood;
                       pr_tank := tank;
                       pr_references := ref_count;
                       pr_last_update := last_update |})
  end.

(** The dictionaries [analyze_skills] and [analyze_achievements] build. *)
Record SkillRecord : Type := mkSkill {
  skill : option string;         (* 'skill' *)
  learned : datetime;            (* 'learned' *)
  skill_timestamp : Z            (* 'timestamp' *)
}.

Record AchievementRecord : Type := mkAchievement {
  achievement : option string;   (* 'achievement' *)
  completed : datetime;          (* 'completed' *)
  achievement_timestamp : Z      (* 'timestamp' *)
}.

(** The loop of [analyze_skills] (lines 136-145) over the children still to
    visit, [skills] being the list built so far. *)
Fixpoint skills_loop (todo : list Element) (skills : list SkillRecord)
  : result (list SkillRecord) :=
  match todo with
  | [] => Return skills
  | skill :: todo' =>
      if String.eqb (ET.tag skill) "int" then
        let skill_id := ET.get skill "id" in
        timestamp <- int_of (ET.text skill) ;;
        date <- fromtimestamp timestamp ;;
        skills_loop todo' (skills ++ [mkSkill skill_id date timestamp])
      else skills_loop todo' skills
  end.

(** [analyze_skills].  [main] passes [skills_ref.get('tsid')], which may be
    [None]. *)
Definition analyze_skills (self : GlitchObjectAnalyzer)
    (skills_tsid : option string) : result (answer (list SkillRecord)) :=
  match PyDict.lookup skills_tsid (objects self) with
  | None => Return (Message "Skills object not found")
  | Some skills_obj =>
      match ET.find_desc_id (xml skills_obj) "object" "skills" with
      | None => Return (Message "No skills data found")
      | Some skills_elem =>
          skills <- skills_loop (ET.children skills_elem) [] ;;
          Return (Value (PyList.sort skill_timestamp skills))
      end
  end.

(** The loop of [analyze_achievements] (lines 163-172). *)
Fixpoint achievements_loop (todo : list Element)
    (achievements : list AchievementRecord) : result (list AchievementRecord) :=
  match todo with
  | [] => Return achievements
  | ach :: todo' =>
      if String.eqb (ET.tag ach) "int" then
        let ach_id := ET.get ach "id" in
        timestamp <- int_of (ET.text ach) ;;
        date <- fromtimestamp timestamp ;;
        achievements_loop todo'
          (achievements ++ [mkAchievement ach_id date timestamp])
      else achievements_loop todo' achievements
  end.

(** [analyze_achievements] *)
Definition analyze_achievements (self : GlitchObjectAnalyzer)
    (achievements_tsid : option string)
  : result (answer (list AchievementRecord)) :=
  match PyDict.lookup achievements_tsid (objects self) with
  | None => Return (Message "Achievements object not found")
  | Some ach_obj =>
      match ET.find_desc_id (xml ach_obj) "object" "achievements" with
      | None => Return (Message "No achievements data found")
      | Some ach_elem =>
          achievements <- achievements_loop (ET.children ach_elem) [] ;;
          Return (Value (PyList.sort achievement_timestamp achievements))
      end
  end.

End Analyzer.

(** ** The command line: [main]

    [print(x)] appends [x] to the output; the line [load_objects] prints for
    a document that fails keeps its structured form. *)

Inductive Printed : Type :=
| Text (s : string)
| LoadError (l : ErrorLine).

(** The newline character. *)
Definition nl : string := String (ascii_of_nat 10) EmptyString.

(** [__doc__], the docstring of the module (lines 2-20). *)
Definition doc : string :=
  String.concat nl
  ["";
   "Glitch Object Analyzer";
   "A demonstration tool for exploring Glitch game object data.";
   "";
   "Usage:";
   "    python analyze_objects.py [command] [options]";
   "";
   "Commands:";
   "    summary     - Show overview of all objects";
   "    player      - Analyze player object details  ";
   "    inventory   - Show inventory contents";
   "    progression - Show skill/achievement progression";
   "    references  - Map object relationships";
   "";
   "Example:";
   "    python analyze_objects.py summary";
   "    python analyze_objects.py player PDOADP8FT3V22TI";
   "    python analyze_objects.py progression --skills";
   ""].

(** [str(n)] for a natural number, as an f-string formats it. *)
Definition str_nat (n : nat) : string := NilZero.string_of_uint (Nat.to_uint n).

(** The order of the tuples [(obj_type, count)]: by the string, then by the
    number. *)
Definition item_leb (a b : string * nat) : bool :=
  match String.compare (fst a) (fst b) with
  | Lt => true
  | Eq => (snd a <=? snd b)%nat
  | Gt => false
  end.

Fixpoint insert_item (x : string * nat) (l : list (string * nat))
  : list (string * nat) :=
  match l with
  | [] => [x]
  | y :: l' => if item_leb x y then x :: l else y :: insert_item x l'
  end.

(** [sorted(counts.items())] *)
Fixpoint sorted_items (l : list (string * nat)) : list (string * nat) :=
  match l with
  | [] => []
  | x :: l' => insert_item x (sorted_items l')
  end.

(** [l[-n:]], for [n] positive. *)
Definition last_n (A : Type) (n : nat) (l : list A) : list A :=
  skipn (List.length l - n) l.

(** What a command has printed, and the exception that ended it, if any. *)
Definition run : Type := (list string * option exn)%type.

(** [a] then [b]: [b] runs only when [a] has not raised. *)
Definition and_then (a b : run) : run :=
  match snd a with
  | Some e => a
  | None => ((fst a ++ fst b)%list, snd b)
  end.

Section Main.

Variable datetime : Type.
Variable fromtimestamp : Z -> result datetime.
Variable fromtimestamp_ms : Z -> result datetime.
Variable max_str_digits : nat.
Variable ET_parse : string -> result Element.

(** [str(d)] and [d.strftime('%Y-%m-%d')] for a date. *)
Variable str_datetime : datetime -> string.
Variable strftime_ymd : datetime -> string.

Local Open Scope string_scope.

(** List concatenation, [++] being the concatenation of strings here. *)
Local Notation "l1 +++ l2" := (List.app l1 l2)
  (at level 60, right associativity).

(** The [summary] command (lines 186-205). *)
Definition summary_lines (analyzer : GlitchObjectAnalyzer) : list string :=
  ["=== Glitch Objects Summary ===";
   "Total objects: " ++ str_nat (PyDict.len (objects analyzer));
   nl ++ "Object type breakdown:"]
  +++ map (fun '(obj_type, count) => "  " ++ obj_type ++ ": " ++ str_nat count)
          (sorted_items (get_object_counts analyzer))
  +++ match players analyzer with
      | [] => []
      | player :: _ =>
          let contained := find_containers analyzer (tsid player) in
          [nl ++ "Main player: " ++ label player
              ++ " (" ++ PyStr.format (tsid player) ++ ")";
           "Connected objects: " ++ str_nat (List.length contained)]
          +++ map (fun obj => "  - " ++ label obj ++ " (" ++ class obj ++ ")")
                  (firstn 5 contained)
          +++ (if (5 <? List.length contained)%nat
               then ["  ... and " ++ str_nat (List.length contained - 5) ++ " more"]
               else [])
      end.

(** The [player] command (lines 208-224); [args] is [sys.argv[2:]]. *)
Definition player_lines (analyzer : GlitchObjectAnalyzer) (args : list string)
  : run :=
  match args with
  | [] => (["Usage: analyze_objects.py player <TSID>"], None)
  | player_tsid :: _ =>
      match analyze_player fromtimestamp_ms analyzer player_tsid with
      | Raise e => ([], Some e)
      | Return (Value result) =>
          (["=== Player Analysis: " ++ pr_name result ++ " ===";
            "TSID: " ++ pr_tsid result;
            "Energy: " ++ pr_energy result;
            "Mood: " ++ pr_mood result;
            "Tank: " ++ PyStr.format (pr_tank result);
            "Connected objects: " ++ str_nat (pr_references result);
            "Last update: " ++ str_datetime (pr_last_update result)], None)
      | Return (Message result) => ([result], None)
      end
  end.

(** The skills part of the [progression] command (lines 237-249). *)
Definition skills_section (analyzer : GlitchObjectAnalyzer) (player_xml : Element)
  : run :=
  match ET.find_desc_id player_xml "objref" "skills" with
  | None => ([], None)
  | Some skills_ref =>
      let skills_tsid := ET.get skills_ref "tsid" in
      match analyze_skills fromtimestamp max_str_digits analyzer skills_tsid with
      | Raise e => ([], Some e)
      | Return skills =>
          ("=== Skill Progression ==="
           :: match skills with
              | Value skills =>
                  ("Total skills learned: " ++ str_nat (List.length skills))
                  :: "Recent skills:"
                  :: map (fun sk => "  " ++ strftime_ymd (learned sk) ++ ": "
                                    ++ PyStr.format (skill sk))
                         (last_n 5 skills)
              | Message skills => [skills]
              end, None)
      end
  end.

(** The achievements part of the [progression] command (lines 252-264). *)
Definition achievements_section (analyzer : GlitchObjectAnalyzer)
    (player_xml : Element) : run :=
  match ET.find_desc_id player_xml "objref" "achievements" with
  | None => ([], None)
  | Some ach_ref =>
      let ach_tsid := ET.get ach_ref "tsid" in
      match analyze_achievements fromtimestamp max_str_digits analyzer ach_tsid with
      | Raise e => ([], Some e)
      | Return achievements =>
          ((nl ++ "=== Achievement Progress ===")
           :: match achievements with
              | Value achievements =>
                  ("Total achievements: " ++ str_nat (List.length achievements))
                  :: "Recent achievements:"
                  :: map (fun ach => "  " ++ strftime_ymd (completed ach) ++ ": "
                                     ++ PyStr.format (achievement ach))
                         (last_n 5 achievements)
              | Message achievements => [achievements]
              end, None)
      end
  end.

(** The [progression] command (lines 228-264). *)
Definition progression_lines (analyzer : GlitchObjectAnalyzer) : run :=
  match players analyzer with
  | [] => (["No player object found"], None)
  | player :: _ =>
      let player_xml := xml player in
      and_then (skills_section analyzer player_xml)
               (achievements_section analyzer player_xml)
  end.

(** The lines the [inventory] command prints for a bag (lines 281-292). *)
Definition bag_lines (bag : Obj) : list string :=
  let bag_xml := xml bag in
  let items := ET.findall_desc bag_xml "objref" in
  [nl ++ label bag ++ " (" ++ class bag ++ "):";
   "  Items: " ++ str_nat (List.length items)]
  +++ map (fun item => "    - " ++ PyStr.format (ET.get item "label"))
          (firstn 3 items)
  +++ (if (3 <? List.length items)%nat
       then ["    ... and " ++ str_nat (List.length items - 3) ++ " more"]
       else []).

(** The bags the [inventory] command lists (lines 274-275). *)
Definition bag_objects (analyzer : GlitchObjectAnalyzer) (player : Obj) : list Obj :=
  let bags := find_containers analyzer (tsid player) in
  filter (fun obj => PyStr.startswith (class obj) "bag_") bags.

(** The [inventory] command (lines 268-292). *)
Definition inventory_lines (analyzer : GlitchObjectAnalyzer) : list string :=
  match players analyzer with
  | [] => ["No player object found"]
  | player :: _ =>
      ["=== Inventory Analysis ===";
       "Total bags: " ++ str_nat (List.length (bag_objects analyzer player))]
      +++ flat_map bag_lines (bag_objects analyzer player)
  end.

(** The dispatch on [command = sys.argv[1]] (lines 185-296), [args] being
    [sys.argv[2:]]. *)
Definition dispatch (analyzer : GlitchObjectAnalyzer) (command : string)
    (args : list string) : run :=
  if String.eqb command "summary" then (summary_lines analyzer, None)
  else if String.eqb command "player" then player_lines analyzer args
  else if String.eqb command "progression" then progression_lines analyzer
  else if String.eqb command "inventory" then (inventory_lines analyzer, None)
  else (["Unknown command: " ++ command; doc], None).

(** [main], on [sys.argv] and the listing of the current directory: what is
    printed, and the exception that ends the program, if any. *)
Definition main (argv : list string) (listing : list string)
  : list Printed * option exn :=
  match argv with
  | [] | [_] => ([Text doc], None)
  | _ :: command :: args =>
      let '(analyzer, errors) := init max_str_digits ET_parse listing in
      let '(lines, raised) := dispatch analyzer command args in
      (map LoadError errors +++ map Text lines, raised)
  end.

End Main.

(** ** Auxiliary notions the statements use *)

(** The counter of a category, [0] when the category has no entry. *)
Definition count_of (cat : string) (counts : PyDict.t nat) : nat :=
  match PyDict.get cat counts with
  | Some n => n
  | None => 0
  end.

(** The counting loop started from the counters [acc]. *)
Definition tally (objs : list Obj) (acc : PyDict.t nat) : PyDict.t nat :=
  fold_left (fun counts obj => increment (classify (class obj)) counts) objs acc.

(** The six categories in the order of their names, and the position of a
    category in that order. *)
Definition categories_in_order : list string :=
  ["Bags"; "Data Containers"; "Groups"; "Items"; "Players"; "Trees/Plants"].

Definition rank (cat : string) : nat :=
  if String.eqb cat "Bags" then 0
  else if String.eqb cat "Data Containers" then 1
  else if String.eqb cat "Groups" then 2
  else if String.eqb cat "Items" then 3
  else if String.eqb cat "Players" then 4
  else if String.eqb cat "Trees/Plants" then 5
  else 6.

(** The order of the tuples and the order of the ranks, as relations. *)
Definition item_le (x y : string * nat) : Prop := item_leb x y = true.

Definition rank_lt (a b : string) : Prop := (rank a < rank b)%nat.

(** A category that has an object. *)
Definition occurs (self : GlitchObjectAnalyzer) (cat : string) : bool :=
  existsb (fun o => String.eqb (classify (class o)) cat)
          (PyDict.values (objects self)).

(** A name [load_objects] takes for a document, and the key it files the
    document under. *)
Definition is_document (filename : string) : bool := PyStr.endswith filename ".xml".

Definition stem (filename : string) : string := PyStr.drop_last 4 filename.

Definition documents (listing : list string) : list string :=
  filter is_document listing.

Section Loading.
Variable max_str_digits : nat.
Variable ET_parse : string -> result Element.

(** The object a file parses to, if it does. *)
Definition parsed (filename : string) : option Obj :=
  match parse_object max_str_digits ET_parse filename with
  | Return obj => Some obj
  | Raise _ => None
  end.

(** The documents of a listing that fail to parse. *)
Definition failing (listing : list string) : list string :=
  filter (fun f => raises (parse_object max_str_digits ET_parse f))
         (documents listing).

(** A document with key [k] that parses. *)
Definition loads_as (k : string) (filename : string) : bool :=
  is_document filename && String.eqb (stem filename) k
  && negb (raises (parse_object max_str_digits ET_parse filename)).

(** The last file of the listing that is a document with key [k] and
    parses. *)
Definition last_loaded (k : string) (listing : list string) : option string :=
  find (loads_as k) (rev listing).

(** The line [load_objects] prints for a file: none unless the file is a
    document that fails to parse. *)
Definition error_line (filename : string) : list ErrorLine :=
  if is_document filename then
    match parse_object max_str_digits ET_parse filename with
    | Return _ => []
    | Raise e => [ErrorLoading filename e]
    end
  else [].

(** The entry a file contributes to the dictionary: none unless the file is
    a document that parses. *)
Definition entry_of (filename : string) : list (string * Obj) :=
  if is_document filename then
    match parsed filename with
    | Some obj => [(stem filename, obj)]
    | None => []
    end
  else [].

End Loading.

(** Equality of two optional identifiers is decidable. *)
Definition option_string_dec (a b : option string) : {a = b} + {a <> b}.
Proof. decide equality. apply string_dec. Defined.

(** A child the loops of [analyze_skills] and [analyze_achievements]
    keep. *)
Definition is_int (c : Element) : bool := String.eqb (ET.tag c) "int".

Section Timeline.
Variable datetime : Type.
Variable fromtimestamp : Z -> result datetime.
Variable max_str_digits : nat.

(** What the body of the two loops computes from the text of a child: the
    integer and its date. *)
Definition dated (c : Element) : result (Z * datetime) :=
  t <- int_of max_str_digits (ET.text c) ;;
  d <- fromtimestamp t ;;
  Return (t, d).

(** [pairs] lists, in document order, the identifier and the integer value
    of the [int] children among [cs], each value being one the platform can
    convert to a date. *)
Definition items_of (cs : list Element) (pairs : list (option string * Z)) : Prop :=
  Forall2 (fun c p =>
             ET.get c "id" = fst p
             /\ int_of max_str_digits (ET.text c) = Return (snd p)
             /\ raises (fromtimestamp (snd p)) = false)
          (filter is_int cs) pairs.

(** The identifier and timestamp of a record. *)
Definition skill_pair (r : SkillRecord datetime) : option string * Z :=
  (skill r, skill_timestamp r).

Definition achievement_pair (r : AchievementRecord datetime) : option string * Z :=
  (achievement r, achievement_timestamp r).

End Timeline.

(** ** A sample directory

    Small documents in the format of the game's object files, used to run
    the definitions. *)

Module Sample.

Definition player_root : Element :=
  Elem "game_object"
    [("tsid", "PHUMAN1"); ("ts", "1325376000000"); ("label", "Anna");
     ("class_tsid", "human")] None
    [Elem "object" [("id", "metabolics")] None
       [Elem "prop" [("id", "energy"); ("top", "100")] (Some "80") [];
        Elem "prop" [("id", "mood"); ("top", "100")] (Some "55") [];
        Elem "int" [("id", "tank")] (Some "100") []];
     Elem "objref" [("id", "skills"); ("tsid", "SKILLS1"); ("label", "Skills")]
       None []].

Definition bag_root : Element :=
  Elem "game_object"
    [("tsid", "BBAG1"); ("ts", "1325376000001"); ("label", "Large Bag");
     ("class_tsid", "bag_large"); ("container", "PHUMAN1")] None
    [Elem "objref" [("id", "0"); ("tsid", "IAPPLE1"); ("label", "Apple")] None []].

(** Skills [A], [B], [C] learned at 300, 100 and 200. *)
Definition skills_root : Element :=
  Elem "game_object"
    [("tsid", "SKILLS1"); ("ts", "1325376000002"); ("class_tsid", "dc")] None
    [Elem "object" [("id", "skills")] None
       [Elem "int" [("id", "A")] (Some "300") [];
        Elem "str" [("id", "note")] (Some "not a skill") [];
        Elem "int" [("id", "B")] (Some "100") [];
        Elem "int" [("id", "C")] (Some "200") []];
     Elem "object" [("id", "achievements")] None
       [Elem "int" [("id", "first_steps")] (Some "250") [];
        Elem "int" [] (Some "150") [];
        Elem "int" [("id", "collector")] (Some "150") []]].

(** A document whose timestamp is not an integer literal. *)
Definition bad_ts_root : Element :=
  Elem "game_object"
    [("tsid", "IBADTS1"); ("ts", "12x4"); ("label", "Clock");
     ("class_tsid", "apple")] None [].

(** A document whose [tsid] attribute differs from its file name. *)
Definition renamed_root : Element :=
  Elem "game_object"
    [("tsid", "ABC"); ("ts", "5"); ("class_tsid", "apple")] None [].

(** A player document without [tsid] and without [container]. *)
Definition anonymous_root : Element :=
  Elem "game_object" [("label", "Nobody"); ("class_tsid", "human")] None [].

(** A skills collection with an entry whose text is not an integer. *)
Definition bad_skill_root : Element :=
  Elem "game_object" [("tsid", "SKILLS2"); ("class_tsid", "dc")] None
    [Elem "object" [("id", "skills")] None
       [Elem "int" [("id", "A")] (Some "soon") []]].

(** The parser on the files of the directory.  [BROKEN.xml] is malformed;
    a name that is not in the directory cannot be opened. *)
Definition ET_parse (filename : string) : result Element :=
  if String.eqb filename "PHUMAN1.xml" then Return player_root
  else if String.eqb filename "BBAG1.xml" then Return bag_root
  else if String.eqb filename "SKILLS1.xml" then Return skills_root
  else if String.eqb filename "IBADTS1.xml" then Return bad_ts_root
  else if String.eqb filename "XYZ.xml" then Return renamed_root
  else if String.eqb filename "PANON.xml" then Return anonymous_root
  else if String.eqb filename "SKILLS2.xml" then Return bad_skill_root
  else if String.eqb filename "BROKEN.xml" then Raise XMLParseError
  else Raise OSError.

Definition listing : list string :=
  ["PHUMAN1.xml"; "BBAG1.xml"; "BROKEN.xml"; "notes.txt"; "SKILLS1.xml";
   "IBADTS1.xml"].

(** CPython's default digit limit. *)
Definition max_str_digits : nat := 4300.

(** A platform on which a date is represented by its number of seconds and
    every year of [datetime] (1 to 9999, in UTC) can be converted. *)
Definition fromtimestamp (t : Z) : result Z :=
  if ((-62135596800 <=? t) && (t <=? 253402300799))%Z then Return t
  else Raise ValueError.

Definition fromtimestamp_ms (ms : Z) : result Z := fromtimestamp (ms / 1000)%Z.

(** The analyzer built on the directory, and what it printed. *)
Definition analyzer : GlitchObjectAnalyzer :=
  fst (init max_str_digits ET_parse listing).

Definition output : list ErrorLine :=
  snd (init max_str_digits ET_parse listing).

(** A second directory, whose player document has no [tsid]. *)
Definition anonymous_listing : list string := ["PANON.xml"; "BBAG1.xml"].

Definition anonymous_analyzer : GlitchObjectAnalyzer :=
  fst (init max_str_digits ET_parse anonymous_listing).

Definition anonymous_obj : Obj :=
  mkObj None "Nobody" "human" 0 None anonymous_root.

End Sample.

(** ** More sample data *)

Module Demo.

(** A date is printed as its number of seconds. *)
Definition str_datetime (d : Z) : string := NilZero.string_of_int (Z.to_int d).

Definition strftime_ymd (d : Z) : string := NilZero.string_of_int (Z.to_int d).

(** An object whose skills collection has no entry. *)
Definition novice_obj : Obj :=
  mkObj (Some "SKILLS3") "Unknown" "dc" 0 None
    (Elem "game_object" [("tsid", "SKILLS3"); ("class_tsid", "dc")] None
       [Elem "object" [("id", "skills")] None
          [Elem "str" [("id", "note")] (Some "nothing yet") []]]).

Definition novice_analyzer : GlitchObjectAnalyzer :=
  mkAnalyzer [("SKILLS3", novice_obj)].

(** An object whose skills carry timestamps in seconds, in milliseconds
    and in seconds again. *)
Definition millis_obj : Obj :=
  mkObj (Some "SKILLS4") "Unknown" "dc" 0 None
    (Elem "game_object" [("tsid", "SKILLS4"); ("class_tsid", "dc")] None
       [Elem "object" [("id", "skills")] None
          [Elem "int" [("id", "A")] (Some "300") [];
           Elem "int" [("id", "B")] (Some "1325376000000") [];
           Elem "int" [("id", "C")] (Some "100") []]]).

Definition millis_analyzer : GlitchObjectAnalyzer :=
  mkAnalyzer [("SKILLS4", millis_obj)].

(** An object whose skills collection lies two levels below the root,
    after an object node with another identifier. *)
Definition nested_obj : Obj :=
  mkObj (Some "SKILLS5") "Unknown" "dc" 0 None
    (Elem "game_object" [("tsid", "SKILLS5"); ("class_tsid", "dc")] None
       [Elem "object" [("id", "stats")] None
          [Elem "int" [("id", "level")] (Some "7") []];
        Elem "object" [("id", "progress")] None
          [Elem "object" [("id", "skills")] None
             [Elem "int" [("id", "A")] (Some "300") [];
              Elem "int" [("id", "B")] (Some "100") [];
              Elem "int" [("id", "C")] (Some "200") []]]]).

Definition nested_analyzer : GlitchObjectAnalyzer :=
  mkAnalyzer [("SKILLS5", nested_obj)].

(** The sample directory some time later: the bag has been replaced by a
    smaller one and the player's document has become unreadable. *)
Definition smaller_bag_root : Element :=
  Elem "game_object"
    [("tsid", "BBAG1"); ("ts", "1325376000009"); ("label", "Small Bag");
     ("class_tsid", "bag_small"); ("container", "PHUMAN1")] None [].

Definition ET_parse_later (filename : string) : result Element :=
  if String.eqb filename "BBAG1.xml" then Return smaller_bag_root
  else if String.eqb filename "PHUMAN1.xml" then Raise XMLParseError
  else Raise OSError.

Definition later_listing : list string := ["PHUMAN1.xml"; "BBAG1.xml"].

(** The directory of the unreadable skills collection. *)
Definition bad_skill_analyzer : GlitchObjectAnalyzer :=
  fst (init Sample.max_str_digits Sample.ET_parse ["SKILLS2.xml"]).

(** A directory without player. *)
Definition bag_only_analyzer : GlitchObjectAnalyzer :=
  fst (init Sample.max_str_digits Sample.ET_parse ["BBAG1.xml"]).

End Demo.

(** * Properties *)

(** ** Strings *)

Module PyStrFacts.

Lemma substring_all (s : string) : substring 0 (String.length s) s = s.
Proof. induction s as [|c s IH]; simpl; [reflexivity | now rewrite IH]. Qed.

Lemma substring_split (s : string) :
  forall n, (n <= String.length s)%nat ->
  (substring 0 n s ++ substring n (String.length s - n) s)%string = s.
Proof.
  induction s as [|c s IH]; intros n Hn; simpl in *.
  - destruct n; reflexivity.
  - destruct n as [|n]; simpl.
    + now rewrite substring_all.
    + rewrite IH by lia. reflexivity.
Qed.

(** A name that ends with [p] is its stem followed by [p]. *)
Lemma endswith_split (s p : string) :
  PyStr.endswith s p = true ->
  (PyStr.drop_last (String.length p) s ++ p)%string = s.
Proof.
  unfold PyStr.endswith, PyStr.drop_last. intros H.
  apply andb_prop in H. destruct H as [Hlen Heq].
  apply Nat.leb_le in Hlen. apply String.eqb_eq in Heq.
  rewrite <- Heq at 2.
  set (n := (String.length s - String.length p)%nat).
  replace (String.length p) with (String.length s - n)%nat at 1 by lia.
  apply substring_split. lia.
Qed.

(** Two names with the same extension and the same stem are equal. *)
Lemma stem_inj (f g p : string) :
  PyStr.endswith f p = true -> PyStr.endswith g p = true ->
  PyStr.drop_last (String.length p) f = PyStr.drop_last (String.length p) g ->
  f = g.
Proof.
  intros Hf Hg E.
  rewrite <- (endswith_split _ _ Hf), <- (endswith_split _ _ Hg), E.
  reflexivity.
Qed.

End PyStrFacts.

(** ** Dictionaries *)

Module PyDictFacts.

Section Facts.
Variable V : Type.
Implicit Types (d : PyDict.t V) (k : string) (v : V).

Lemma get_setitem_eq k v d : PyDict.get k (PyDict.setitem k v d) = Some v.
Proof.
  induction d as [|[k' v'] d IH]; simpl.
  - now rewrite String.eqb_refl.
  - destruct (String.eqb k k') eqn:E; simpl.
    + now rewrite String.eqb_refl.
    + now rewrite E.
Qed.

Lemma get_setitem_neq k k' v d :
  k <> k' -> PyDict.get k' (PyDict.setitem k v d) = PyDict.get k' d.
Proof.
  intros Hne. induction d as [|[k1 v1] d IH]; simpl.
  - destruct (String.eqb k' k) eqn:E; [|reflexivity].
    apply String.eqb_eq in E. congruence.
  - destruct (String.eqb k k1) eqn:E; simpl.
    + apply String.eqb_eq in E. subst k1.
      destruct (String.eqb k' k) eqn:E'; [|reflexivity].
      apply String.eqb_eq in E'. congruence.
    + now rewrite IH.
Qed.

Lemma get_setitem k k' v d :
  PyDict.get k' (PyDict.setitem k v d) =
  if String.eqb k k' then Some v else PyDict.get k' d.
Proof.
  destruct (String.eqb k k') eqn:E.
  - apply String.eqb_eq in E. subst. apply get_setitem_eq.
  - apply String.eqb_neq in E. now apply get_setitem_neq.
Qed.

Lemma in_keys_setitem k k' v d :
  In k' (PyDict.keys (PyDict.setitem k v d)) <-> k' = k \/ In k' (PyDict.keys d).
Proof.
  unfold PyDict.keys. induction d as [|[k1 v1] d IH]; simpl.
  - intuition congruence.
  - destruct (String.eqb k k1) eqn:E; simpl.
    + apply String.eqb_eq in E. subst. intuition congruence.
    + rewrite IH. intuition congruence.
Qed.

(** Assignment never creates a second entry for a key. *)
Lemma NoDup_keys_setitem k v d :
  NoDup (PyDict.keys d) -> NoDup (PyDict.keys (PyDict.setitem k v d)).
Proof.
  unfold PyDict.keys. induction d as [|[k1 v1] d IH]; simpl; intros Hnd.
  - constructor; [intros [] | constructor].
  - inversion Hnd as [|? ? Hnot Hnd']; subst.
    destruct (String.eqb k k1) eqn:E; simpl.
    + apply String.eqb_eq in E. subst. now constructor.
    + constructor; [|now apply IH].
      intros Hin. apply (in_keys_setitem k k1 v d) in Hin.
      destruct Hin as [->|Hin]; [|contradiction].
      now rewrite String.eqb_refl in E.
Qed.

Lemma len_setitem k v d :
  PyDict.len (PyDict.setitem k v d) =
  match PyDict.get k d with
  | Some _ => PyDict.len d
  | None => S (PyDict.len d)
  end.
Proof.
  unfold PyDict.len. induction d as [|[k1 v1] d IH]; simpl; [reflexivity|].
  destruct (String.eqb k k1); simpl; [reflexivity|].
  rewrite IH. now destruct (PyDict.get k d).
Qed.

Lemma len_setitem_le k v d :
  (PyDict.len (PyDict.setitem k v d) <= S (PyDict.len d))%nat.
Proof. rewrite len_setitem. destruct (PyDict.get k d); lia. Qed.

Lemma get_Some_In k v d : PyDict.get k d = Some v -> In (k, v) d.
Proof.
  induction d as [|[k1 v1] d IH]; simpl; [discriminate|].
  destruct (String.eqb k k1) eqn:E.
  - apply String.eqb_eq in E. intros [= ->]. subst. now left.
  - intros H. right. now apply IH.
Qed.

Lemma In_get k v d : NoDup (PyDict.keys d) -> In (k, v) d -> PyDict.get k d = Some v.
Proof.
  unfold PyDict.keys. induction d as [|[k1 v1] d IH]; simpl; intros Hnd Hin.
  - contradiction.
  - inversion Hnd as [|? ? Hnot Hnd']; subst.
    destruct Hin as [[= -> ->]|Hin].
    + now rewrite String.eqb_refl.
    + destruct (String.eqb k k1) eqn:E.
      * apply String.eqb_eq in E. subst. exfalso. apply Hnot.
        change k1 with (fst (k1, v)). now apply in_map.
      * now apply IH.
Qed.

(** A dictionary holds one value per key. *)
Lemma In_functional k v1 v2 d :
  NoDup (PyDict.keys d) -> In (k, v1) d -> In (k, v2) d -> v1 = v2.
Proof.
  intros Hnd H1 H2.
  apply (In_get _ _ _ Hnd) in H1. apply (In_get _ _ _ Hnd) in H2. congruence.
Qed.

Lemma get_None_keys k d : PyDict.get k d = None <-> ~ In k (PyDict.keys d).
Proof.
  unfold PyDict.keys. induction d as [|[k1 v1] d IH]; simpl.
  - intuition.
  - destruct (String.eqb k k1) eqn:E.
    + apply String.eqb_eq in E. subst. split; [discriminate | intros H; exfalso; auto].
    + apply String.eqb_neq in E. rewrite IH. intuition congruence.
Qed.

End Facts.

End PyDictFacts.

(** ** Sorting *)

Module PyListFacts.

Section Facts.
Variable A : Type.
Variable key : A -> Z.

Lemma insert_perm (x : A) (l : list A) :
  Permutation (PyList.insert key x l) (x :: l).
Proof.
  induction l as [|y l IH]; simpl; [reflexivity|].
  destruct (key x <=? key y)%Z; [reflexivity|].
  rewrite IH. apply perm_swap.
Qed.

Lemma sort_perm (l : list A) : Permutation (PyList.sort key l) l.
Proof.
  induction l as [|x l IH]; simpl; [reflexivity|].
  rewrite insert_perm. now constructor.
Qed.

Lemma insert_hdrel (x y : A) (l : list A) :
  (key y <= key x)%Z -> HdRel (PyList.key_le key) y l ->
  HdRel (PyList.key_le key) y (PyList.insert key x l).
Proof.
  intros Hyx Hhd. destruct l as [|z l]; simpl.
  - now constructor.
  - destruct (key x <=? key z)%Z; constructor; trivial.
    now inversion Hhd.
Qed.

Lemma insert_sorted (x : A) (l : list A) :
  Sorted (PyList.key_le key) l -> Sorted (PyList.key_le key) (PyList.insert key x l).
Proof.
  induction 1 as [|y l Hs IH Hhd]; simpl.
  - repeat constructor.
  - destruct (key x <=? key y)%Z eqn:E.
    + apply Z.leb_le in E. repeat constructor; trivial.
    + apply Z.leb_gt in E. constructor; [exact IH|].
      apply insert_hdrel; [lia | exact Hhd].
Qed.

(** The output is in non-decreasing key order. *)
Lemma sort_sorted (l : list A) : Sorted (PyList.key_le key) (PyList.sort key l).
Proof.
  induction l as [|x l IH]; simpl; [constructor | now apply insert_sorted].
Qed.

Lemma with_key_insert (k : Z) (x : A) (l : list A) :
  PyList.with_key key k (PyList.insert key x l) = PyList.with_key key k (x :: l).
Proof.
  unfold PyList.with_key. induction l as [|y l IH]; simpl; [reflexivity|].
  destruct (key x <=? key y)%Z eqn:E; [reflexivity|].
  apply Z.leb_gt in E. simpl in *. rewrite IH.
  destruct (key x =? k)%Z eqn:Ex, (key y =? k)%Z eqn:Ey; trivial.
  apply Z.eqb_eq in Ex, Ey. lia.
Qed.

(** The sort is stable: elements with equal keys keep their order. *)
Lemma sort_stable (k : Z) (l : list A) :
  PyList.with_key key k (PyList.sort key l) = PyList.with_key key k l.
Proof.
  induction l as [|x l IH]; simpl; [reflexivity|].
  rewrite with_key_insert. unfold PyList.with_key in *. simpl. now rewrite IH.
Qed.

Lemma with_key_In (k : Z) (x : A) (l : list A) :
  In x (PyList.with_key key k l) <-> In x l /\ key x = k.
Proof.
  unfold PyList.with_key. rewrite filter_In. now rewrite Z.eqb_eq.
Qed.

Lemma key_le_trans : Relations_1.Transitive (PyList.key_le key).
Proof. intros a b c. unfold PyList.key_le. lia. Qed.

(** Sortedness and stability determine the result: two sorted lists that
    hold the same elements in the same order for every key are equal.  So
    every stable sort computes what [PyList.sort] computes. *)
Lemma stable_sort_unique (l1 : list A) : forall l2,
  Sorted (PyList.key_le key) l1 -> Sorted (PyList.key_le key) l2 ->
  (forall k, PyList.with_key key k l1 = PyList.with_key key k l2) ->
  l1 = l2.
Proof.
  induction l1 as [|x l1 IH]; intros l2 Hs1 Hs2 Hk.
  - destruct l2 as [|y l2]; [reflexivity|].
    specialize (Hk (key y)). unfold PyList.with_key in Hk. simpl in Hk.
    rewrite Z.eqb_refl in Hk. discriminate.
  - destruct l2 as [|y l2].
    + specialize (Hk (key x)). unfold PyList.with_key in Hk. simpl in Hk.
      rewrite Z.eqb_refl in Hk. discriminate.
    + assert (Hxy : key x = key y).
      { apply Sorted_StronglySorted in Hs1, Hs2; try apply key_le_trans.
        inversion Hs1 as [|? ? _ Hall1]; inversion Hs2 as [|? ? _ Hall2]; subst.
        rewrite Forall_forall in Hall1, Hall2.
        assert (Hx : In x (y :: l2)).
        { apply (with_key_In (key x)). rewrite <- Hk. apply with_key_In.
          simpl; auto. }
        assert (Hy : In y (x :: l1)).
        { apply (with_key_In (key y)). rewrite Hk. apply with_key_In.
          simpl; auto. }
        destruct Hx as [->|Hx]; [reflexivity|].
        destruct Hy as [->|Hy]; [reflexivity|].
        specialize (Hall1 _ Hy). specialize (Hall2 _ Hx).
        unfold PyList.key_le in *. lia. }
      assert (x = y).
      { specialize (Hk (key x)). unfold PyList.with_key in Hk. simpl in Hk.
        rewrite <- Hxy, Z.eqb_refl in Hk. congruence. }
      subst y. f_equal. apply IH.
      * now inversion Hs1.
      * now inversion Hs2.
      * intros k. specialize (Hk k). unfold PyList.with_key in *. simpl in Hk.
        destruct (key x =? k)%Z; congruence.
Qed.


End Facts.

(** Sorting commutes with a map that preserves keys. *)
Lemma sort_map (A B : Type) (keyA : A -> Z) (keyB : B -> Z) (f : A -> B) :
  (forall a, keyB (f a) = keyA a) ->
  forall l, map f (PyList.sort keyA l) = PyList.sort keyB (map f l).
Proof.
  intros Hk. induction l as [|x l IH]; simpl; [reflexivity|].
  rewrite <- IH. generalize (PyList.sort keyA l). intros s.
  induction s as [|y s IHs]; simpl; [reflexivity|].
  rewrite !Hk. destruct (keyA x <=? keyA y)%Z; simpl; [reflexivity|].
  now rewrite IHs.
Qed.

End PyListFacts.

(** ** Classification and counting *)

Lemma increment_cons (k k1 : string) (v1 : nat) (counts : PyDict.t nat) :
  increment k ((k1, v1) :: counts) =
  if String.eqb k k1 then (k, v1 + 1) :: counts else (k1, v1) :: increment k counts.
Proof.
  unfold increment. simpl. now destruct (String.eqb k k1).
Qed.

Lemma sum_increment (k : string) (counts : PyDict.t nat) :
  list_sum (PyDict.values (increment k counts)) = S (list_sum (PyDict.values counts)).
Proof.
  induction counts as [|[k1 v1] counts IH].
  - reflexivity.
  - rewrite increment_cons. destruct (String.eqb k k1); simpl in *.
    + lia.
    + rewrite IH. lia.
Qed.

Lemma count_of_increment (cat k : string) (counts : PyDict.t nat) :
  count_of cat (increment k counts) =
  if String.eqb k cat then S (count_of cat counts) else count_of cat counts.
Proof.
  unfold count_of, increment. rewrite PyDictFacts.get_setitem.
  destruct (String.eqb k cat) eqn:E; [|reflexivity].
  apply String.eqb_eq in E. subst. destruct (PyDict.get cat counts); lia.
Qed.

Lemma classify_in_categories (class_type : string) :
  In (classify class_type) categories.
Proof.
  unfold classify, categories.
  repeat match goal with |- context [if ?b then _ else _] => destruct b end;
    simpl; tauto.
Qed.

Lemma tally_sum (objs : list Obj) : forall acc,
  list_sum (PyDict.values (tally objs acc)) =
  (list_sum (PyDict.values acc) + List.length objs)%nat.
Proof.
  induction objs as [|o objs IH]; intros acc; simpl.
  - lia.
  - unfold tally in *. rewrite IH, sum_increment. lia.
Qed.

Lemma tally_count (cat : string) (objs : list Obj) : forall acc,
  count_of cat (tally objs acc) =
  (count_of cat acc +
   List.length (filter (fun o => String.eqb (classify (class o)) cat) objs))%nat.
Proof.
  induction objs as [|o objs IH]; intros acc; simpl.
  - lia.
  - unfold tally in *. rewrite IH, count_of_increment.
    destruct (String.eqb (classify (class o)) cat); simpl; lia.
Qed.

Lemma tally_keys (objs : list Obj) : forall acc,
  NoDup (PyDict.keys acc) ->
  (forall k, In k (PyDict.keys acc) -> In k categories) ->
  NoDup (PyDict.keys (tally objs acc)) /\
  (forall k, In k (PyDict.keys (tally objs acc)) -> In k categories).
Proof.
  induction objs as [|o objs IH]; intros acc Hnd Hin; simpl.
  - now split.
  - apply IH.
    + now apply PyDictFacts.NoDup_keys_setitem.
    + intros k Hk. apply PyDictFacts.in_keys_setitem in Hk.
      destruct Hk as [->|Hk]; [apply classify_in_categories | now apply Hin].
Qed.

(** C4.  [classify] maps every class tag to one of the six categories, and
    decides by the first rule that matches, in the order bag prefix, [dc],
    [human], [group], tree prefix, default.  A tag with the bag prefix is
    classified as [Bags] whatever else it is. *)
Theorem classify_total_priority (class_type : string) :
  In (classify class_type) categories
  /\ (PyStr.startswith class_type "bag_" = true -> classify class_type = "Bags")
  /\ (PyStr.startswith class_type "bag_" = false ->
      (class_type = "dc" -> classify class_type = "Data Containers")
      /\ (class_type = "human" -> classify class_type = "Players")
      /\ (class_type = "group" -> classify class_type = "Groups")
      /\ (String.eqb class_type "dc" = false ->
          String.eqb class_type "human" = false ->
          String.eqb class_type "group" = false ->
          (PyStr.startswith class_type "trant_" = true ->
           classify class_type = "Trees/Plants")
          /\ (PyStr.startswith class_type "trant_" = false ->
              classify class_type = "Items")))
  /\ (forall marker, In marker ["dc"; "human"; "group"] ->
      class_type = marker -> PyStr.startswith class_type "bag_" = false).
Proof.
  split; [apply classify_in_categories|].
  split; [intros H; unfold classify; now rewrite H|].
  split.
  - intros Hbag. unfold classify. rewrite Hbag.
    split; [now intros -> |].
    split; [now intros -> |].
    split; [now intros -> |].
    intros Hdc Hhu Hgr. rewrite Hdc, Hhu, Hgr.
    split; intros Htr; now rewrite Htr.
  - intros marker Hin ->. simpl in Hin.
    destruct Hin as [<-|[<-|[<-|[]]]]; reflexivity.
Qed.

(** C5.  The counters [get_object_counts] returns add up to the number of
    loaded objects; the counter of each category is the number of objects
    [classify] sends to it, and every key is one of the six categories,
    present once. *)
Theorem get_object_counts_total (self : GlitchObjectAnalyzer) :
  list_sum (PyDict.values (get_object_counts self)) = PyDict.len (objects self)
  /\ (forall cat,
      count_of cat (get_object_counts self) =
      List.length (filter (fun o => String.eqb (classify (class o)) cat)
                          (PyDict.values (objects self))))
  /\ NoDup (PyDict.keys (get_object_counts self))
  /\ (forall k, In k (PyDict.keys (get_object_counts self)) -> In k categories).
Proof.
  unfold get_object_counts. fold (tally (PyDict.values (objects self)) PyDict.empty).
  split; [|split].
  - rewrite tally_sum. simpl. unfold PyDict.values, PyDict.len. now rewrite length_map.
  - intros cat. now rewrite tally_count.
  - apply tally_keys; simpl; [constructor | tauto].
Qed.

(** ** Loading *)

Lemma find_app (A : Type) (p : A -> bool) (l1 l2 : list A) :
  find p (l1 ++ l2) =
  match find p l1 with
  | Some x => Some x
  | None => find p l2
  end.
Proof.
  induction l1 as [|x l1 IH]; simpl; [reflexivity|].
  now destruct (p x).
Qed.

Section LoadingFacts.
Variable max_str_digits : nat.
Variable ET_parse : string -> result Element.

Local Abbreviation parse_object := (parse_object max_str_digits ET_parse).
Local Abbreviation load_step := (load_step max_str_digits ET_parse).
Local Abbreviation load_objects := (load_objects max_str_digits ET_parse).
Local Abbreviation init := (init max_str_digits ET_parse).
Local Abbreviation parsed := (parsed max_str_digits ET_parse).
Local Abbreviation failing := (failing max_str_digits ET_parse).
Local Abbreviation loads_as := (loads_as max_str_digits ET_parse).
Local Abbreviation last_loaded := (last_loaded max_str_digits ET_parse).
Local Abbreviation error_line := (error_line max_str_digits ET_parse).

Implicit Types (st : GlitchObjectAnalyzer * list ErrorLine) (f k : string).

Lemma load_step_objects st f :
  objects (fst (load_step st f)) =
  if is_document f then
    match parsed f with
    | Some obj => PyDict.setitem (stem f) obj (objects (fst st))
    | None => objects (fst st)
    end
  else objects (fst st).
Proof.
  destruct st as [self out]. unfold load_step, parsed, is_document, stem. simpl.
  destruct (PyStr.endswith f ".xml"); [|reflexivity].
  now destruct (parse_object f).
Qed.

Lemma load_step_out st f : snd (load_step st f) = snd st ++ error_line f.
Proof.
  destruct st as [self out]. unfold load_step, error_line, is_document. simpl.
  destruct (PyStr.endswith f ".xml"); [|now rewrite app_nil_r].
  destruct (parse_object f); simpl; [now rewrite app_nil_r | reflexivity].
Qed.

Lemma load_objects_cons f listing st :
  load_objects (f :: listing) st = load_objects listing (load_step st f).
Proof. reflexivity. Qed.

(** The output is the error lines of the files, in the order of the
    listing. *)
Lemma load_objects_out listing : forall st,
  snd (load_objects listing st) = snd st ++ flat_map error_line listing.
Proof.
  induction listing as [|f listing IH]; intros st.
  - simpl. now rewrite app_nil_r.
  - rewrite load_objects_cons, IH, load_step_out. simpl. now rewrite app_assoc.
Qed.

Lemma error_lines_filenames listing :
  map err_filename (flat_map error_line listing) = failing listing.
Proof.
  unfold failing, documents, error_line.
  induction listing as [|f listing IH]; simpl; [reflexivity|].
  rewrite map_app, IH.
  destruct (is_document f); simpl; [|reflexivity].
  now destruct (parse_object f).
Qed.

Lemma load_objects_NoDup listing : forall st,
  NoDup (PyDict.keys (objects (fst st))) ->
  NoDup (PyDict.keys (objects (fst (load_objects listing st)))).
Proof.
  induction listing as [|f listing IH]; intros st Hnd; [exact Hnd|].
  rewrite load_objects_cons. apply IH. rewrite load_step_objects.
  destruct (is_document f); [|exact Hnd].
  destruct (parsed f); [|exact Hnd].
  now apply PyDictFacts.NoDup_keys_setitem.
Qed.

Lemma loads_as_parsed k f :
  loads_as k f = true ->
  is_document f = true /\ stem f = k /\ exists obj, parsed f = Some obj.
Proof.
  unfold loads_as, parsed. intros H.
  apply andb_prop in H. destruct H as [H Hp].
  apply andb_prop in H. destruct H as [Hd Hk].
  apply String.eqb_eq in Hk.
  destruct (parse_object f); [eauto | discriminate].
Qed.

Lemma loads_as_false k f :
  loads_as k f = false ->
  is_document f = false \/ stem f <> k \/ parsed f = None.
Proof.
  unfold loads_as, parsed. intros H.
  destruct (is_document f); [|now left].
  destruct (String.eqb (stem f) k) eqn:Hk.
  - right. right. simpl in H. now destruct (parse_object f).
  - right. left. now apply String.eqb_neq.
Qed.

(** Last write wins: the object under a key is the one parsed from the
    last file of the listing that loads under that key. *)
Lemma load_objects_get k listing : forall st,
  PyDict.get k (objects (fst (load_objects listing st))) =
  match last_loaded k listing with
  | Some f => parsed f
  | None => PyDict.get k (objects (fst st))
  end.
Proof.
  unfold last_loaded.
  induction listing as [|f listing IH]; intros st; [reflexivity|].
  rewrite load_objects_cons, IH. simpl. rewrite find_app.
  destruct (find (loads_as k) (rev listing)); [reflexivity|].
  simpl. rewrite load_step_objects.
  destruct (loads_as k f) eqn:E.
  - apply loads_as_parsed in E. destruct E as (Hd & Hk & obj & Hp).
    rewrite Hd, Hp. subst k. apply PyDictFacts.get_setitem_eq.
  - apply loads_as_false in E.
    destruct (is_document f); [|reflexivity].
    destruct (parsed f) eqn:Hp; [|reflexivity].
    destruct E as [E|[E|E]]; try discriminate.
    now apply PyDictFacts.get_setitem_neq.
Qed.

Lemma load_objects_len_le listing : forall st,
  (PyDict.len (objects (fst (load_objects listing st)))
   + List.length (failing listing)
   <= PyDict.len (objects (fst st)) + List.length (documents listing))%nat.
Proof.
  unfold failing, documents.
  induction listing as [|f listing IH]; intros st; [simpl; lia|].
  rewrite load_objects_cons. specialize (IH (load_step st f)).
  rewrite load_step_objects in IH. simpl. unfold parsed in IH.
  destruct (is_document f); simpl; [|exact IH].
  destruct (parse_object f); simpl.
  - pose proof (PyDictFacts.len_setitem_le (stem f) a (objects (fst st))). lia.
  - lia.
Qed.

(** With distinct file names every document that parses gets an entry of
    its own. *)
Lemma load_objects_len_eq listing : forall st,
  NoDup listing ->
  (forall f, In f listing -> is_document f = true ->
             PyDict.get (stem f) (objects (fst st)) = None) ->
  (PyDict.len (objects (fst (load_objects listing st)))
   + List.length (failing listing)
   = PyDict.len (objects (fst st)) + List.length (documents listing))%nat.
Proof.
  unfold failing, documents.
  induction listing as [|f listing IH]; intros st Hnd Hfresh; [simpl; lia|].
  inversion Hnd as [|? ? Hnotin Hnd']; subst.
  rewrite load_objects_cons.
  assert (Hfresh' : forall g, In g listing -> is_document g = true ->
            PyDict.get (stem g) (objects (fst (load_step st f))) = None).
  { intros g Hg Hdg. rewrite load_step_objects.
    destruct (is_document f) eqn:Hdf; [|apply Hfresh; simpl; auto].
    destruct (parsed f); [|apply Hfresh; simpl; auto].
    rewrite PyDictFacts.get_setitem_neq; [apply Hfresh; simpl; auto|].
    intros E. apply Hnotin.
    rewrite (PyStrFacts.stem_inj f g ".xml" Hdf Hdg E). exact Hg. }
  specialize (IH (load_step st f) Hnd' Hfresh').
  rewrite load_step_objects in IH. simpl. unfold parsed in IH.
  destruct (is_document f) eqn:Hdf; simpl; [|exact IH].
  destruct (parse_object f); simpl.
  - rewrite PyDictFacts.len_setitem in IH.
    rewrite (Hfresh f) in IH by (simpl; auto). lia.
  - lia.
Qed.

Lemma parse_object_inv f obj :
  parse_object f = Return obj ->
  exists root ts,
    ET_parse f = Return root
    /\ int_ts max_str_digits root = Return ts
    /\ obj = mkObj (ET.get root "tsid") (ET.get_default root "label" "Unknown")
                   (ET.get_default root "class_tsid" "unknown") ts
                   (ET.get root "container") root.
Proof.
  unfold parse_object. intros H.
  destruct (ET_parse f) as [root|e]; simpl in H; [|discriminate].
  destruct (int_ts max_str_digits root) as [ts|e] eqn:Hts; simpl in H;
    [|discriminate].
  injection H as <-. exists root, ts. auto.
Qed.

(** C1, as the code has it.  The [tsid] field of the object parsed from a
    file is the [tsid] attribute of the file's root element ([None] when the
    root has none); the file name plays no part in it.  The file name with
    its extension stripped is the key [load_objects] files the object
    under. *)
Theorem parse_object_tsid_is_root_attribute f obj :
  parse_object f = Return obj ->
  exists root,
    ET_parse f = Return root
    /\ tsid obj = ET.get root "tsid"
    /\ xml obj = root
    /\ (is_document f = true ->
        (stem f ++ ".xml")%string = f
        /\ forall st,
             PyDict.get (stem f) (objects (fst (load_step st f))) = Some obj).
Proof.
  intros H. destruct (parse_object_inv _ H) as (root & ts & Hroot & _ & ->).
  exists root. split; [exact Hroot|]. split; [reflexivity|].
  split; [reflexivity|]. intros Hdoc. split.
  - now apply (PyStrFacts.endswith_split f ".xml").
  - intros st. rewrite load_step_objects. unfold parsed.
    rewrite Hdoc, H. apply PyDictFacts.get_setitem_eq.
Qed.

(** C2.  Of the [n] documents of a listing, [k] of which fail to parse,
    [load_objects] keeps at most [n - k] objects and prints exactly [k]
    error lines, one per failing document and in the order of the listing.
    No failure stops the loop: every document that parses has its key in the
    dictionary and every document that fails has its line, wherever they
    stand in the listing.  When the file names are distinct, as in a
    directory, the dictionary has exactly [n - k] entries and each document
    that parses is stored under its own key. *)
Theorem load_objects_tolerates_failures (listing : list string) :
  let self := fst (init listing) in
  let out := snd (init listing) in
  let n := List.length (documents listing) in
  let k := List.length (failing listing) in
  (PyDict.len (objects self) <= n - k)%nat
  /\ List.length out = k
  /\ map err_filename out = failing listing
  /\ (forall f, In f listing -> is_document f = true ->
      match parse_object f with
      | Return _ => exists obj, PyDict.get (stem f) (objects self) = Some obj
      | Raise e => In (ErrorLoading f e) out
      end)
  /\ (NoDup listing ->
      PyDict.len (objects self) = (n - k)%nat
      /\ forall f, In f listing -> is_document f = true ->
           PyDict.get (stem f) (objects self) = parsed f).
Proof.
  intros self out n k. subst self out n k. unfold init.
  set (st0 := (mkAnalyzer PyDict.empty, @nil ErrorLine)).
  assert (Hout : snd (load_objects listing st0) = flat_map error_line listing)
    by (rewrite load_objects_out; reflexivity).
  assert (Hlast : forall f, In f listing -> is_document f = true ->
            forall obj, parsed f = Some obj ->
            exists g, last_loaded (stem f) listing = Some g).
  { intros f Hin Hd obj Hp. unfold last_loaded.
    destruct (find (loads_as (stem f)) (rev listing)) eqn:E; [eauto|].
    exfalso. apply in_rev in Hin. pose proof (find_none _ _ E f Hin) as Hf.
    unfold loads_as, parsed in *. rewrite Hd, String.eqb_refl in Hf.
    now destruct (parse_object f). }
  split; [|split; [|split; [|split]]].
  - pose proof (load_objects_len_le listing st0) as H. simpl in H. lia.
  - rewrite Hout, <- error_lines_filenames. now rewrite length_map.
  - rewrite Hout. apply error_lines_filenames.
  - intros f Hin Hd. destruct (parse_object f) as [obj|e] eqn:Hp.
    + destruct (Hlast f Hin Hd obj) as [g Hg]; [unfold parsed; now rewrite Hp|].
      rewrite load_objects_get, Hg.
      apply find_some in Hg. destruct Hg as [_ Hg].
      apply loads_as_parsed in Hg. destruct Hg as (_ & _ & o & Ho). eauto.
    + rewrite Hout. apply in_flat_map. exists f. split; [exact Hin|].
      unfold error_line. rewrite Hd, Hp. now left.
  - intros Hnd. split.
    + pose proof (load_objects_len_eq st0 Hnd) as H. simpl in H.
      rewrite <- H by reflexivity. lia.
    + intros f Hin Hd. rewrite load_objects_get. simpl.
      destruct (last_loaded (stem f) listing) as [g|] eqn:Hg.
      * unfold last_loaded in Hg. apply find_some in Hg. destruct Hg as [_ Hg].
        apply loads_as_parsed in Hg. destruct Hg as (Hdg & Hk & _).
        now rewrite (PyStrFacts.stem_inj g f ".xml" Hdg Hd Hk).
      * destruct (parsed f) as [obj|] eqn:Hp; [|reflexivity].
        destruct (Hlast f Hin Hd obj Hp) as [g' Hg']. congruence.
Qed.

(** C8.  Loading never leaves two entries with the same key, so a lookup
    yields one object or nothing.  Whatever the dictionary held before the
    load, the object under a key afterwards is the one parsed from the last
    file of the listing that is a document with that key and parses: a
    document that parses replaces the object stored under its key.  A key
    whose documents all fail keeps the object it had, and a key that had
    none and gets none is absent; [analyze_player] answers with its
    not-found message for it.  The load that [__init__] runs starts from the
    empty dictionary; a later call of [load_objects] starts from the
    dictionary the instance holds. *)
Theorem load_objects_last_write_wins (listing : list string)
    (st : GlitchObjectAnalyzer * list ErrorLine) :
  NoDup (PyDict.keys (objects (fst st))) ->
  let self := fst (load_objects listing st) in
  NoDup (PyDict.keys (objects self))
  /\ (forall k o1 o2,
      In (k, o1) (objects self) -> In (k, o2) (objects self) -> o1 = o2)
  /\ (forall k,
      PyDict.get k (objects self) =
      match last_loaded k listing with
      | Some f => parsed f
      | None => PyDict.get k (objects (fst st))
      end)
  /\ (forall k before f after obj,
      listing = before ++ f :: after ->
      is_document f = true -> stem f = k -> parse_object f = Return obj ->
      (forall g, In g after -> is_document g = true -> stem g = k ->
                 raises (parse_object g) = true) ->
      PyDict.get k (objects self) = Some obj)
  /\ (forall k,
      (forall g, In g listing -> is_document g = true -> stem g = k ->
                 raises (parse_object g) = true) ->
      PyDict.get k (objects self) = PyDict.get k (objects (fst st)))
  /\ (forall datetime (fromtimestamp_ms : Z -> result datetime) k,
      PyDict.get k (objects self) = None ->
      analyze_player fromtimestamp_ms self k =
      Return (Message ("Player " ++ k ++ " not found")%string)).
Proof.
  intros Hstart self. subst self.
  assert (Hnd : NoDup (PyDict.keys (objects (fst (load_objects listing st)))))
    by now apply load_objects_NoDup.
  split; [exact Hnd|].
  split; [intros k o1 o2; now apply PyDictFacts.In_functional|].
  split; [intros k; apply load_objects_get|].
  split; [|split].
  - intros k before f after obj -> Hd Hk Hp Hafter.
    rewrite load_objects_get. unfold last_loaded.
    rewrite rev_app_distr. simpl. rewrite <- app_assoc, find_app.
    destruct (find (loads_as k) (rev after)) as [g|] eqn:Hg.
    + apply find_some in Hg. destruct Hg as [Hin Hg].
      apply in_rev in Hin.
      apply loads_as_parsed in Hg. destruct Hg as (Hdg & Hkg & o & Ho).
      specialize (Hafter g Hin Hdg Hkg). unfold parsed in Ho.
      destruct (parse_object g); discriminate.
    + simpl. unfold loads_as. rewrite Hd, Hk, String.eqb_refl, Hp. simpl.
      unfold parsed. now rewrite Hp.
  - intros k Hfail. rewrite load_objects_get. unfold last_loaded.
    destruct (find (loads_as k) (rev listing)) as [g|] eqn:Hg; [|reflexivity].
    apply find_some in Hg. destruct Hg as [Hin Hg]. apply in_rev in Hin.
    apply loads_as_parsed in Hg. destruct Hg as (Hdg & Hkg & o & Ho).
    specialize (Hfail g Hin Hdg Hkg). unfold parsed in Ho.
    destruct (parse_object g); discriminate.
  - intros datetime fromtimestamp_ms k Hk. unfold analyze_player. now rewrite Hk.
Qed.

(** C9.  A document whose [ts] attribute is present and is not an integer
    literal does not parse: [parse_object] raises [ValueError], the loop
    leaves the dictionary as it was and prints one error line for the file.
    After loading a listing that names the file, the file's key is absent
    from the dictionary (no object with a defaulted timestamp is stored)
    and the output has as many lines for the file as the listing names
    it. *)
Theorem bad_timestamp_fails_document f root s :
  ET_parse f = Return root ->
  ET.get root "ts" = Some s ->
  PyStr.int max_str_digits s = None ->
  parse_object f = Raise ValueError
  /\ (is_document f = true ->
      (forall st, load_step st f = (fst st, snd st ++ [ErrorLoading f ValueError]))
      /\ forall listing,
           let self := fst (init listing) in
           let out := snd (init listing) in
           PyDict.get (stem f) (objects self) = None
           /\ filter (fun l => String.eqb (err_filename l) f) out
              = repeat (ErrorLoading f ValueError) (count_occ string_dec listing f)).
Proof.
  intros Hroot Hts Hint.
  assert (Hp : parse_object f = Raise ValueError).
  { unfold parse_object, int_ts, int_of. rewrite Hroot. simpl.
    now rewrite Hts, Hint. }
  split; [exact Hp|]. intros Hd. split.
  - intros [self out]. unfold load_step. unfold is_document in Hd.
    now rewrite Hd, Hp.
  - intros listing. simpl. split.
    + unfold init. rewrite load_objects_get. simpl.
      destruct (last_loaded (stem f) listing) as [g|] eqn:Hg; [|reflexivity].
      unfold last_loaded in Hg. apply find_some in Hg. destruct Hg as [_ Hg].
      apply loads_as_parsed in Hg. destruct Hg as (Hdg & Hk & o & Ho).
      rewrite (PyStrFacts.stem_inj g f ".xml" Hdg Hd Hk) in Ho.
      unfold parsed in Ho. rewrite Hp in Ho. discriminate.
    + unfold init. rewrite load_objects_out. simpl.
      induction listing as [|g listing IH]; [reflexivity|].
      simpl. rewrite filter_app, IH.
      destruct (string_dec g f) as [->|Hne].
      * unfold error_line. rewrite Hd, Hp. simpl. now rewrite String.eqb_refl.
      * replace (filter _ (error_line g)) with (@nil ErrorLine); [reflexivity|].
        unfold error_line. destruct (is_document g); [|reflexivity].
        destruct (parse_object g); [reflexivity|]. simpl.
        apply String.eqb_neq in Hne. now rewrite Hne.
Qed.

End LoadingFacts.

(** ** Containment *)

Lemma option_string_eqb_eq (a b : option string) :
  option_string_eqb a b = true <-> a = b.
Proof.
  destruct a as [x|], b as [y|]; simpl; try (split; congruence).
  rewrite String.eqb_eq. split; congruence.
Qed.

(** What [find_containers] computes.  [find_containers c] returns, in the
    order of the dictionary, exactly the loaded objects whose [container]
    equals [c], and the empty list when there is none.  For an identifier (a
    string) an object without [container] is never returned.  The comparison
    has no guard for [None]: for that argument the objects without
    [container] are returned. *)
Theorem find_containers_exact (self : GlitchObjectAnalyzer) :
  (forall c e,
     In e (find_containers self c) <->
     In e (PyDict.values (objects self)) /\ container e = c)
  /\ (forall c,
      find_containers self c =
      filter (fun e => if option_string_dec (container e) c
                       then true else false)
             (PyDict.values (objects self)))
  /\ (forall c,
      (forall e, In e (PyDict.values (objects self)) -> container e = c -> False) ->
      find_containers self c = [])
  /\ (forall (c : string) e,
      In e (find_containers self (Some c)) -> container e = None -> False)
  /\ (forall e,
      In e (find_containers self None) <->
      In e (PyDict.values (objects self)) /\ container e = None).
Proof.
  assert (Hin : forall c e, In e (find_containers self c) <->
            In e (PyDict.values (objects self)) /\ container e = c).
  { intros c e. unfold find_containers. rewrite filter_In.
    now rewrite option_string_eqb_eq. }
  split; [exact Hin|]. split; [|split; [|split]].
  - intros c. unfold find_containers. apply filter_ext. intros e.
    destruct (option_string_dec (container e) c) as [E|E].
    + now apply option_string_eqb_eq.
    + destruct (option_string_eqb (container e) c) eqn:E'; [|reflexivity].
      apply option_string_eqb_eq in E'. contradiction.
  - intros c Hnone. destruct (find_containers self c) as [|e l] eqn:E; [reflexivity|].
    exfalso. assert (He : In e (find_containers self c)) by (rewrite E; now left).
    apply Hin in He. destruct He as [He1 He2]. eauto.
  - intros c e He Hc. apply Hin in He. destruct He as [_ He]. congruence.
  - intros e. apply Hin.
Qed.

(** ** Navigation of the attribute tree *)

Section NavigatorFacts.
Variable datetime : Type.
Variable fromtimestamp : Z -> result datetime.
Variable fromtimestamp_ms : Z -> result datetime.
Variable max_str_digits : nat.

Local Abbreviation int_of := (int_of max_str_digits).
Local Abbreviation dated := (dated fromtimestamp max_str_digits).
Local Abbreviation items_of := (items_of fromtimestamp max_str_digits).
Local Abbreviation skills_loop := (skills_loop fromtimestamp max_str_digits).
Local Abbreviation achievements_loop :=
  (achievements_loop fromtimestamp max_str_digits).
Local Abbreviation analyze_skills := (analyze_skills fromtimestamp max_str_digits).
Local Abbreviation analyze_achievements :=
  (analyze_achievements fromtimestamp max_str_digits).
Local Abbreviation analyze_player := (analyze_player fromtimestamp_ms).

(** The two loops differ in the names of the fields only; their facts are
    proved by the same scripts. *)
Ltac loop_ok IH c pairs acc H mk :=
  unfold items_of in H; simpl in H |- *;
  destruct (is_int c) eqn:E; unfold is_int in E; rewrite E;
  [ inversion H as [|? p ? ps (Hid & Hint & Hdate) Hrest]; subst;
    rewrite Hint; simpl;
    destruct (fromtimestamp (snd p)) as [d|] eqn:Hd; [|discriminate]; simpl;
    destruct (IH ps (acc ++ [mk (ET.get c "id") d (snd p)]) Hrest)
      as (new & Hloop & Hmap & Hall);
    exists (mk (ET.get c "id") d (snd p) :: new);
    rewrite Hloop, <- app_assoc; simpl;
    split; [reflexivity|]; split;
    [ rewrite Hmap, Hid; now destruct p
    | constructor; [exact Hd | exact Hall] ]
  | apply IH; exact H ].

Lemma skills_loop_ok cs : forall pairs acc,
  items_of cs pairs ->
  exists new,
    skills_loop cs acc = Return (acc ++ new)
    /\ map (@skill_pair datetime) new = pairs
    /\ Forall (fun r => fromtimestamp (skill_timestamp r) = Return (learned r)) new.
Proof.
  induction cs as [|c cs IH]; intros pairs acc H.
  - inversion H; subst. exists []. simpl. rewrite app_nil_r. auto.
  - loop_ok IH c pairs acc H (@mkSkill datetime).
Qed.

Lemma achievements_loop_ok cs : forall pairs acc,
  items_of cs pairs ->
  exists new,
    achievements_loop cs acc = Return (acc ++ new)
    /\ map (@achievement_pair datetime) new = pairs
    /\ Forall (fun r => fromtimestamp (achievement_timestamp r)
                        = Return (completed r)) new.
Proof.
  induction cs as [|c cs IH]; intros pairs acc H.
  - inversion H; subst. exists []. simpl. rewrite app_nil_r. auto.
  - loop_ok IH c pairs acc H (@mkAchievement datetime).
Qed.







Lemma analyze_skills_found self key obj elem pairs :
  PyDict.lookup key (objects self) = Some obj ->
  ET.find_desc_id (xml obj) "object" "skills" = Some elem ->
  items_of (ET.children elem) pairs ->
  exists new,
    analyze_skills self key = Return (Value (PyList.sort (@skill_timestamp _) new))
    /\ map (@skill_pair datetime) new = pairs
    /\ Forall (fun r => fromtimestamp (skill_timestamp r) = Return (learned r)) new.
Proof.
  intros Hobj Helem Hitems. unfold analyze_skills. rewrite Hobj, Helem.
  destruct (skills_loop_ok [] Hitems) as (new & Hloop & Hmap & Hall).
  rewrite Hloop. simpl. eauto.
Qed.

Lemma analyze_achievements_found self key obj elem pairs :
  PyDict.lookup key (objects self) = Some obj ->
  ET.find_desc_id (xml obj) "object" "achievements" = Some elem ->
  items_of (ET.children elem) pairs ->
  exists new,
    analyze_achievements self key
    = Return (Value (PyList.sort (@achievement_timestamp _) new))
    /\ map (@achievement_pair datetime) new = pairs
    /\ Forall (fun r => fromtimestamp (achievement_timestamp r)
                        = Return (completed r)) new.
Proof.
  intros Hobj Helem Hitems. unfold analyze_achievements. rewrite Hobj, Helem.
  destruct (achievements_loop_ok [] Hitems) as (new & Hloop & Hmap & Hall).
  rewrite Hloop. simpl. eauto.
Qed.

(** What the stable sort by timestamp is, on the pairs of a timeline. *)
Lemma timeline_sort (A : Type) (ts : A -> Z) (pair : A -> option string * Z)
    (new : list A) (pairs : list (option string * Z)) :
  (forall r, snd (pair r) = ts r) ->
  map pair new = pairs ->
  let timeline := map pair (PyList.sort ts new) in
  timeline = PyList.sort snd pairs
  /\ Sorted (PyList.key_le snd) timeline
  /\ Permutation timeline pairs
  /\ (forall t, PyList.with_key snd t timeline = PyList.with_key snd t pairs).
Proof.
  intros Hts <-. simpl.
  rewrite (PyListFacts.sort_map ts snd pair Hts).
  split; [reflexivity|]. split; [apply PyListFacts.sort_sorted|].
  split; [apply PyListFacts.sort_perm | intros t; apply PyListFacts.sort_stable].
Qed.

(** C6, as the code has it.  For a loaded object whose tree has the
    collection node, and whose [int] children all carry an integer the
    platform can convert to a date,
    [analyze_skills] (and [analyze_achievements], on its own collection)
    returns one record per [int] child of that node, and no other; the
    record pairs the child's [id] attribute with its integer value; the
    records are in non-decreasing order of timestamp, and records with equal
    timestamps are in document order. *)
Theorem timeline_sorted_stable (self : GlitchObjectAnalyzer)
    (key : option string) (obj : Obj) :
  PyDict.lookup key (objects self) = Some obj ->
  (forall elem pairs,
     ET.find_desc_id (xml obj) "object" "skills" = Some elem ->
     items_of (ET.children elem) pairs ->
     exists skills,
       analyze_skills self key = Return (Value skills)
       /\ Forall (fun r => fromtimestamp (skill_timestamp r) = Return (learned r))
                 skills
       /\ let timeline := map (@skill_pair datetime) skills in
          timeline = PyList.sort snd pairs
          /\ Sorted (PyList.key_le snd) timeline
          /\ Permutation timeline pairs
          /\ (forall t, PyList.with_key snd t timeline = PyList.with_key snd t pairs))
  /\ (forall elem pairs,
     ET.find_desc_id (xml obj) "object" "achievements" = Some elem ->
     items_of (ET.children elem) pairs ->
     exists achievements,
       analyze_achievements self key = Return (Value achievements)
       /\ Forall (fun r => fromtimestamp (achievement_timestamp r)
                           = Return (completed r)) achievements
       /\ let timeline := map (@achievement_pair datetime) achievements in
          timeline = PyList.sort snd pairs
          /\ Sorted (PyList.key_le snd) timeline
          /\ Permutation timeline pairs
          /\ (forall t, PyList.with_key snd t timeline = PyList.with_key snd t pairs)).
Proof.
  intros Hobj. split; intros elem pairs Helem Hitems.
  - destruct (analyze_skills_found _ _ Hobj Helem Hitems) as (new & Hrun & Hmap & Hall).
    exists (PyList.sort (@skill_timestamp _) new). split; [exact Hrun|]. split.
    + eapply Permutation_Forall; [|exact Hall].
      symmetry. apply PyListFacts.sort_perm.
    + now apply timeline_sort.
  - destruct (analyze_achievements_found _ _ Hobj Helem Hitems)
      as (new & Hrun & Hmap & Hall).
    exists (PyList.sort (@achievement_timestamp _) new). split; [exact Hrun|]. split.
    + eapply Permutation_Forall; [|exact Hall].
      symmetry. apply PyListFacts.sort_perm.
    + now apply timeline_sort.
Qed.

(** C7.  A node that is absent is answered, not raised.  [analyze_player]
    gives ["Unknown"] for the energy, the mood and the tank when the
    metabolics node is absent, and for each of them whose own node is
    absent; its only call that can raise is the conversion of the object's
    timestamp to a date.  [analyze_player], [analyze_skills] and
    [analyze_achievements] return their message when the object is not
    loaded, and the last two return their message when the collection node
    is absent. *)
Theorem absent_node_is_answered (self : GlitchObjectAnalyzer) :
  (forall root,
     ET.find_desc_id root "object" "metabolics" = None ->
     metabolics_of root = ("Unknown", "Unknown", Some "Unknown"))
  /\ (forall root metabolics,
      ET.find_desc_id root "object" "metabolics" = Some metabolics ->
      (ET.find_desc_id metabolics "prop" "energy" = None ->
       fst (fst (metabolics_of root)) = "Unknown")
      /\ (ET.find_desc_id metabolics "prop" "mood" = None ->
          snd (fst (metabolics_of root)) = "Unknown")
      /\ (ET.find_desc_id metabolics "int" "tank" = None ->
          snd (metabolics_of root) = Some "Unknown"))
  /\ (forall player_tsid,
      PyDict.get player_tsid (objects self) = None ->
      analyze_player self player_tsid
      = Return (Message ("Player " ++ player_tsid ++ " not found")%string))
  /\ (forall player_tsid player,
      PyDict.get player_tsid (objects self) = Some player ->
      ET.find_desc_id (xml player) "object" "metabolics" = None ->
      analyze_player self player_tsid
      = (last_update <- fromtimestamp_ms (timestamp player) ;;
         Return (Value (mkPlayerReport (label player) player_tsid
                          "Unknown" "Unknown" (Some "Unknown")
                          (List.length (ET.findall_desc (xml player) "objref"))
                          last_update))))
  /\ (forall key,
      PyDict.lookup key (objects self) = None ->
      analyze_skills self key = Return (Message "Skills object not found")
      /\ analyze_achievements self key
         = Return (Message "Achievements object not found"))
  /\ (forall key obj,
      PyDict.lookup key (objects self) = Some obj ->
      (ET.find_desc_id (xml obj) "object" "skills" = None ->
       analyze_skills self key = Return (Message "No skills data found"))
      /\ (ET.find_desc_id (xml obj) "object" "achievements" = None ->
          analyze_achievements self key
          = Return (Message "No achievements data found"))).
Proof.
  split; [|split; [|split; [|split; [|split]]]].
  - intros root H. unfold metabolics_of. now rewrite H.
  - intros root metabolics H. unfold metabolics_of. rewrite H.
    repeat split; intros H'; now rewrite H'.
  - intros k H. unfold analyze_player. now rewrite H.
  - intros k player H Hm. unfold analyze_player, metabolics_of.
    now rewrite H, Hm.
  - intros key H. unfold analyze_skills, analyze_achievements. now rewrite H.
  - intros key obj H. unfold analyze_skills, analyze_achievements. rewrite H.
    split; intros H'; now rewrite H'.
Qed.


End NavigatorFacts.

(** * The definitions at work on the sample directory *)

(** The end-to-end scenario: a player, a bag it contains and a malformed
    document give two objects and one error line; the counts are one player
    and one bag; the bag is what the player contains. *)
Example scenario_end_to_end :
  let '(self, out) :=
    init Sample.max_str_digits Sample.ET_parse
         ["PHUMAN1.xml"; "BBAG1.xml"; "BROKEN.xml"] in
  PyDict.keys (objects self) = ["PHUMAN1"; "BBAG1"]
  /\ out = [ErrorLoading "BROKEN.xml" XMLParseError]
  /\ get_object_counts self = [("Players", 1); ("Bags", 1)]
  /\ map label (find_containers self (Some "PHUMAN1")) = ["Large Bag"].
Proof. vm_compute. repeat split. Qed.

Example scenario_int_literals :
  map (PyStr.int 4300)
      ["12"; " 12 "; "-1_000"; "+7"; "007"; "1__0"; "_1"; "1_"; ""; "12x4"; "- 1"]
  = [Some 12; Some 12; Some (-1000); Some 7; Some 7;
     None; None; None; None; None; None]%Z.
Proof. reflexivity. Qed.

Example scenario_player :
  analyze_player Sample.fromtimestamp_ms Sample.analyzer "PHUMAN1"
  = Return (Value (mkPlayerReport "Anna" "PHUMAN1" "80/100" "55/100"
                     (Some "100") 1 1325376000%Z)).
Proof. reflexivity. Qed.

(** A collection entry whose text is not an integer makes [analyze_skills]
    raise. *)
Example scenario_bad_skill :
  analyze_skills Sample.fromtimestamp Sample.max_str_digits
    (fst (init Sample.max_str_digits Sample.ET_parse ["SKILLS2.xml"]))
    (Some "SKILLS2")
  = Raise ValueError.
Proof. reflexivity. Qed.

(** C1: the file [XYZ.xml] holds an object whose [tsid] is [ABC]; the
    parsed object has the identifier [ABC], not the stem [XYZ] of the file
    name. *)
Lemma parse_object_tsid_differs_from_stem :
  exists obj,
    parse_object Sample.max_str_digits Sample.ET_parse "XYZ.xml" = Return obj
    /\ tsid obj = Some "ABC"
    /\ stem "XYZ.xml" = "XYZ"
    /\ option_string_eqb (tsid obj) (Some (stem "XYZ.xml")) = false.
Proof. eexists. repeat split. Qed.

Lemma parse_object_tsid_witness :
  parse_object Sample.max_str_digits Sample.ET_parse "XYZ.xml"
  = Return (mkObj (Some "ABC") "Unknown" "apple" 5 None Sample.renamed_root)
  /\ exists root,
       Sample.ET_parse "XYZ.xml" = Return root
       /\ ET.get root "tsid" = Some "ABC"
       /\ PyDict.get "XYZ"
            (objects (fst (init Sample.max_str_digits Sample.ET_parse ["XYZ.xml"])))
          = Some (mkObj (Some "ABC") "Unknown" "apple" 5 None root).
Proof.
  split; [reflexivity|].
  destruct (@parse_object_tsid_is_root_attribute
              Sample.max_str_digits Sample.ET_parse "XYZ.xml"
              (mkObj (Some "ABC") "Unknown" "apple" 5 None Sample.renamed_root)
              eq_refl)
    as (root & Hroot & Htsid & Hxml & Hdoc).
  exists root. split; [exact Hroot|]. split; [now rewrite <- Htsid|].
  destruct (Hdoc eq_refl) as [_ Hget]. simpl in Hxml. subst root.
  exact (Hget (mkAnalyzer PyDict.empty, [])).
Defined.

(** C3.  [find_containers] at the argument [None].  In a directory whose
    player document has no [tsid], the [summary] command calls
    [find_containers(None)]; the call returns the player itself, an object
    that has no [container], where the function is documented to find the
    objects contained within a specific container.  The sibling
    [analyze_skills] answers the same argument with its not-found
    message. *)
Theorem find_containers_None_returns_roots :
  tsid Sample.anonymous_obj = None
  /\ players Sample.anonymous_analyzer
     = [Sample.anonymous_obj]
  /\ find_containers Sample.anonymous_analyzer None = [Sample.anonymous_obj]
  /\ container Sample.anonymous_obj = None
  /\ summary_contained Sample.anonymous_analyzer = Some [Sample.anonymous_obj]
  /\ analyze_skills Sample.fromtimestamp Sample.max_str_digits
       Sample.anonymous_analyzer None
     = Return (Message "Skills object not found").
Proof. repeat split. Qed.

(** C6: skills [A], [B], [C] learned at 300, 100, 200 come out as [B],
    [C], [A]. *)
Lemma timeline_sorted_stable_witness :
  PyDict.lookup (Some "SKILLS1") (objects Sample.analyzer)
  = Some (mkObj (Some "SKILLS1") "Unknown" "dc" 1325376000002 None
                Sample.skills_root)
  /\ exists skills,
       analyze_skills Sample.fromtimestamp Sample.max_str_digits
         Sample.analyzer (Some "SKILLS1") = Return (Value skills)
       /\ map (@skill_pair Z) skills
          = [(Some "B", 100%Z); (Some "C", 200%Z); (Some "A", 300%Z)].
Proof.
  split; [reflexivity|].
  destruct (@timeline_sorted_stable Z Sample.fromtimestamp Sample.max_str_digits
              Sample.analyzer (Some "SKILLS1") _ eq_refl) as [Hskills _].
  destruct (Hskills _ [(Some "A", 300%Z); (Some "B", 100%Z); (Some "C", 200%Z)]
              eq_refl)
    as (skills & Hrun & _ & Hsorted & _).
  - unfold items_of. simpl. repeat constructor.
  - exists skills. split; [exact Hrun | exact Hsorted].
Defined.

(** C6: the skills 300, 1325376000000 and 100 are three [int] children
    with integer values; the second value is beyond the last year of
    [datetime], and [analyze_skills] raises instead of returning the three
    pairs in order. *)
Lemma timeline_raises_on_undatable_timestamp :
  PyDict.lookup (Some "SKILLS4") (objects Demo.millis_analyzer)
  = Some Demo.millis_obj
  /\ map (fun c => (is_int c, ET.get c "id",
                    int_of Sample.max_str_digits (ET.text c)))
         (match ET.find_desc_id (xml Demo.millis_obj) "object" "skills" with
          | Some elem => ET.children elem
          | None => []
          end)
     = [(true, Some "A", Return 300%Z);
        (true, Some "B", Return 1325376000000%Z);
        (true, Some "C", Return 100%Z)]
  /\ analyze_skills Sample.fromtimestamp Sample.max_str_digits
       Demo.millis_analyzer (Some "SKILLS4") = Raise ValueError.
Proof. repeat split. Qed.

(** The collection node is found wherever it lies below the root. *)
Example scenario_nested_collection :
  match analyze_skills Sample.fromtimestamp Sample.max_str_digits
          Demo.nested_analyzer (Some "SKILLS5") with
  | Return (Value skills) => map (@skill_pair Z) skills
  | _ => []
  end
  = [(Some "B", 100%Z); (Some "C", 200%Z); (Some "A", 300%Z)].
Proof. reflexivity. Qed.

(** C8: the sample directory is loaded a second time, after the bag has
    been replaced and the player's document has become unreadable.  The new
    bag takes the place of the old one; the player stays as it was. *)
Lemma load_objects_last_write_wins_witness :
  PyDict.keys (objects Sample.analyzer) = ["PHUMAN1"; "BBAG1"; "SKILLS1"]
  /\ PyDict.get "BBAG1" (objects Sample.analyzer)
     = Some (mkObj (Some "BBAG1") "Large Bag" "bag_large" 1325376000001
                   (Some "PHUMAN1") Sample.bag_root)
  /\ let self :=
       fst (load_objects Sample.max_str_digits Demo.ET_parse_later
              Demo.later_listing (Sample.analyzer, Sample.output)) in
     PyDict.get "BBAG1" (objects self)
     = Some (mkObj (Some "BBAG1") "Small Bag" "bag_small" 1325376000009
                   (Some "PHUMAN1") Demo.smaller_bag_root)
     /\ PyDict.get "PHUMAN1" (objects self)
        = PyDict.get "PHUMAN1" (objects Sample.analyzer)
     /\ NoDup (PyDict.keys (objects self)).
Proof.
  split; [reflexivity|]. split; [reflexivity|].
  assert (Hstart : NoDup (PyDict.keys
                            (objects (fst (Sample.analyzer, Sample.output))))).
  { change (NoDup ["PHUMAN1"; "BBAG1"; "SKILLS1"]).
    repeat constructor; simpl; intuition discriminate. }
  destruct (@load_objects_last_write_wins Sample.max_str_digits
              Demo.ET_parse_later Demo.later_listing
              (Sample.analyzer, Sample.output) Hstart)
    as (Hnd & _ & _ & Hwins & Hkeeps & _).
  split; [|split; [|exact Hnd]].
  - apply (Hwins "BBAG1" ["PHUMAN1.xml"] "BBAG1.xml" []); try reflexivity.
    intros g [].
  - apply (Hkeeps "PHUMAN1"). intros g Hg Hd Hk.
    simpl in Hg. destruct Hg as [<-|[<-|[]]]; [reflexivity | discriminate Hk].
Defined.

(** C9: the document [IBADTS1.xml] has the timestamp [12x4]. *)
Lemma bad_timestamp_witness :
  ET.get Sample.bad_ts_root "ts" = Some "12x4"
  /\ PyStr.int Sample.max_str_digits "12x4" = None
  /\ parse_object Sample.max_str_digits Sample.ET_parse "IBADTS1.xml"
     = Raise ValueError
  /\ PyDict.get "IBADTS1" (objects Sample.analyzer) = None
  /\ filter (fun l => String.eqb (err_filename l) "IBADTS1.xml") Sample.output
     = [ErrorLoading "IBADTS1.xml" ValueError].
Proof.
  split; [reflexivity|]. split; [reflexivity|].
  destruct (@bad_timestamp_fails_document
              Sample.max_str_digits Sample.ET_parse "IBADTS1.xml"
              Sample.bad_ts_root "12x4" eq_refl eq_refl eq_refl)
    as [Hparse Hdoc].
  split; [exact Hparse|].
  destruct (Hdoc eq_refl) as [_ Hload].
  exact (Hload Sample.listing).
Defined.


(** * Further properties of the loader *)

Lemma setitem_fresh (V : Type) (k : string) (v : V) (d : PyDict.t V) :
  PyDict.get k d = None -> PyDict.setitem k v d = d ++ [(k, v)].
Proof.
  induction d as [|[k1 v1] d IH]; simpl; [reflexivity|].
  destruct (String.eqb k k1); [discriminate|].
  intros H. now rewrite IH.
Qed.

Lemma get_app_None (V : Type) (k : string) (d1 d2 : PyDict.t V) :
  PyDict.get k (d1 ++ d2) = None <->
  PyDict.get k d1 = None /\ PyDict.get k d2 = None.
Proof.
  induction d1 as [|[k1 v1] d1 IH]; simpl.
  - tauto.
  - destruct (String.eqb k k1); [|exact IH].
    split; [discriminate | intros [H _]; discriminate].
Qed.

Section LoaderFacts.
Variable max_str_digits : nat.
Variable ET_parse : string -> result Element.

Local Abbreviation parse_object := (parse_object max_str_digits ET_parse).
Local Abbreviation load_step := (load_step max_str_digits ET_parse).
Local Abbreviation load_objects := (load_objects max_str_digits ET_parse).
Local Abbreviation init := (init max_str_digits ET_parse).
Local Abbreviation parsed := (parsed max_str_digits ET_parse).
Local Abbreviation last_loaded := (last_loaded max_str_digits ET_parse).
Local Abbreviation entry_of := (entry_of max_str_digits ET_parse).

Lemma load_step_not_document st f :
  is_document f = false -> load_step st f = st.
Proof.
  destruct st as [self out]. unfold load_step, is_document. intros H.
  now rewrite H.
Qed.

(** X1.  A file whose name does not end in [.xml] has no effect on the
    load: it is neither stored nor reported.  Loading a listing is loading
    its documents. *)
Theorem load_objects_ignores_other_files (listing : list string) :
  forall st, load_objects listing st = load_objects (documents listing) st.
Proof.
  unfold documents. induction listing as [|f listing IH]; intros st; [reflexivity|].
  simpl. destruct (is_document f) eqn:Hd.
  - simpl. apply IH.
  - fold (load_step st f). rewrite (load_step_not_document st f Hd). apply IH.
Qed.

Lemma load_objects_entries listing : forall st,
  NoDup listing ->
  (forall f, In f listing -> is_document f = true ->
             PyDict.get (stem f) (objects (fst st)) = None) ->
  objects (fst (load_objects listing st))
  = objects (fst st) ++ flat_map entry_of listing.
Proof.
  induction listing as [|f listing IH]; intros st Hnd Hfresh.
  - simpl. now rewrite app_nil_r.
  - inversion Hnd as [|? ? Hnotin Hnd']; subst.
    rewrite (load_objects_cons max_str_digits ET_parse).
    assert (Hstep : objects (fst (load_step st f))
                    = objects (fst st) ++ entry_of f).
    { rewrite load_step_objects. unfold entry_of.
      destruct (is_document f) eqn:Hd; [|now rewrite app_nil_r].
      destruct (parsed f); [|now rewrite app_nil_r].
      apply setitem_fresh. apply Hfresh; simpl; auto. }
    rewrite IH; trivial.
    + rewrite Hstep. simpl. now rewrite app_assoc.
    + intros g Hg Hdg. rewrite Hstep. apply get_app_None. split.
      * apply Hfresh; simpl; auto.
      * unfold entry_of. destruct (is_document f) eqn:Hd; [|reflexivity].
        destruct (parsed f); [|reflexivity]. simpl.
        destruct (String.eqb (stem g) (stem f)) eqn:E; [|reflexivity].
        apply String.eqb_eq in E. exfalso. apply Hnotin.
        now rewrite (PyStrFacts.stem_inj f g ".xml" Hd Hdg (eq_sym E)).
Qed.

(** X2.  When the file names are distinct, as in a directory, the
    dictionary lists the documents that parse in the order of the listing:
    each under the stem of its name, with the object it parses to. *)
Theorem load_objects_keeps_listing_order (listing : list string) :
  NoDup listing ->
  objects (fst (init listing)) = flat_map entry_of listing.
Proof.
  intros Hnd. unfold init.
  now rewrite load_objects_entries.
Qed.

(** X3.  Every object of the dictionary comes from a file of the listing:
    the object under the key [k] is what the file [k.xml] parses to, and
    that file is in the listing. *)
Theorem stored_object_comes_from_its_file (listing : list string)
    (k : string) (obj : Obj) :
  PyDict.get k (objects (fst (init listing))) = Some obj ->
  In (k ++ ".xml")%string listing
  /\ parse_object (k ++ ".xml")%string = Return obj.
Proof.
  unfold init. rewrite load_objects_get. simpl.
  destruct (last_loaded k listing) as [f|] eqn:Hf; [|discriminate].
  intros Hp. unfold last_loaded in Hf.
  apply find_some in Hf. destruct Hf as [Hin Hl]. apply in_rev in Hin.
  apply loads_as_parsed in Hl. destruct Hl as (Hd & Hk & _).
  pose proof (PyStrFacts.endswith_split f ".xml" Hd) as Hsplit.
  simpl in Hsplit. fold (stem f) in Hsplit. rewrite Hk in Hsplit.
  rewrite Hsplit. split; [exact Hin|].
  unfold parsed in Hp. destruct (parse_object f); congruence.
Qed.

End LoaderFacts.

(** * Further properties of the counts *)

Lemma classify_Players (class_type : string) :
  String.eqb (classify class_type) "Players" = String.eqb class_type "human".
Proof.
  unfold classify.
  destruct (PyStr.startswith class_type "bag_") eqn:Hbag.
  { destruct (String.eqb class_type "human") eqn:E; [|reflexivity].
    apply String.eqb_eq in E. subst. discriminate. }
  destruct (String.eqb class_type "dc") eqn:Hdc.
  { apply String.eqb_eq in Hdc. now subst. }
  destruct (String.eqb class_type "human"); [reflexivity|].
  destruct (String.eqb class_type "group"); [reflexivity|].
  now destruct (PyStr.startswith class_type "trant_").
Qed.

Lemma classify_Bags (class_type : string) :
  String.eqb (classify class_type) "Bags" = PyStr.startswith class_type "bag_".
Proof.
  unfold classify.
  destruct (PyStr.startswith class_type "bag_"); [reflexivity|].
  repeat match goal with |- context [if ?b then _ else _] => destruct b end;
    reflexivity.
Qed.

Lemma filter_filter_length (A : Type) (p q : A -> bool) (l : list A) :
  (List.length (filter p (filter q l)) <= List.length (filter p l))%nat.
Proof.
  induction l as [|x l IH]; simpl; [lia|].
  destruct (q x), (p x) eqn:Hp; simpl; try rewrite Hp; simpl; lia.
Qed.

Lemma get_increment (cat k : string) (counts : PyDict.t nat) :
  PyDict.get cat (increment k counts) =
  if String.eqb k cat then Some (S (count_of cat counts))
  else PyDict.get cat counts.
Proof.
  unfold increment, count_of. rewrite PyDictFacts.get_setitem.
  destruct (String.eqb k cat) eqn:E; [|reflexivity].
  apply String.eqb_eq in E. subst.
  destruct (PyDict.get cat counts); f_equal; lia.
Qed.

Lemma tally_get (cat : string) (objs : list Obj) : forall acc,
  (forall n, PyDict.get cat acc = Some n -> 1 <= n)%nat ->
  match PyDict.get cat (tally objs acc) with
  | Some n =>
      (1 <= n)%nat
      /\ n = (count_of cat acc
              + List.length (filter (fun o => String.eqb (classify (class o)) cat)
                                    objs))%nat
  | None =>
      PyDict.get cat acc = None
      /\ filter (fun o => String.eqb (classify (class o)) cat) objs = []
  end.
Proof.
  induction objs as [|o objs IH]; intros acc Hacc; simpl.
  - unfold count_of. destruct (PyDict.get cat acc) as [n|] eqn:E.
    + split; [now apply Hacc | lia].
    + now split.
  - unfold tally in *. simpl.
    specialize (IH (increment (classify (class o)) acc)).
    rewrite count_of_increment, get_increment in IH.
    destruct (String.eqb (classify (class o)) cat) eqn:E.
    + destruct (PyDict.get cat (fold_left _ objs _)) as [n|].
      * destruct IH as [H1 H2]; [intros n' [= <-]; lia|].
        split; [exact H1 | simpl; lia].
      * destruct IH as [H1 _]; [intros n' [= <-]; lia | discriminate].
    + destruct (PyDict.get cat (fold_left _ objs _)) as [n|].
      * destruct IH as [H1 H2]; [exact Hacc|]. split; [exact H1 | lia].
      * destruct IH as [H1 H2]; [exact Hacc|]. now split.
Qed.

Lemma bag_objects_length (self : GlitchObjectAnalyzer) (player : Obj) :
  (List.length (bag_objects self player)
   <= count_of "Bags" (get_object_counts self))%nat.
Proof.
  unfold get_object_counts.
  fold (tally (PyDict.values (objects self)) PyDict.empty).
  rewrite tally_count. simpl. unfold bag_objects, find_containers.
  erewrite (filter_ext (fun o => String.eqb (classify (class o)) "Bags"));
    [apply filter_filter_length|].
  intros o. apply classify_Bags.
Qed.

(** X4.  The objects [main] takes for players (class [human]) are the
    objects [get_object_counts] counts under [Players]: the two numbers
    agree. *)
Theorem players_are_counted_as_Players (self : GlitchObjectAnalyzer) :
  List.length (players self) = count_of "Players" (get_object_counts self).
Proof.
  unfold get_object_counts, players.
  fold (tally (PyDict.values (objects self)) PyDict.empty).
  rewrite tally_count. simpl. f_equal.
  apply filter_ext. intros o. symmetry. apply classify_Players.
Qed.

(** X5.  The bags the [inventory] command lists for a player are the
    loaded objects whose container is the player's [tsid] and that
    [get_object_counts] counts under [Bags]; so their number never exceeds
    the [Bags] counter. *)
Theorem inventory_bags_are_counted_as_Bags (self : GlitchObjectAnalyzer)
    (player : Obj) :
  (forall bag,
     In bag (bag_objects self player) <->
     In bag (PyDict.values (objects self))
     /\ container bag = tsid player
     /\ classify (class bag) = "Bags")
  /\ (List.length (bag_objects self player)
      <= count_of "Bags" (get_object_counts self))%nat.
Proof.
  split.
  - intros bag. unfold bag_objects, find_containers.
    rewrite !filter_In, option_string_eqb_eq, <- classify_Bags, String.eqb_eq.
    tauto.
  - apply bag_objects_length.
Qed.

(** X6.  [get_object_counts] has no entry for a category without object:
    a category is either absent from the result, and then no loaded object
    belongs to it, or present with a counter of at least one. *)
Theorem get_object_counts_has_no_zero_entry (self : GlitchObjectAnalyzer)
    (cat : string) :
  match PyDict.get cat (get_object_counts self) with
  | Some n =>
      (1 <= n)%nat
      /\ n = List.length (filter (fun o => String.eqb (classify (class o)) cat)
                                 (PyDict.values (objects self)))
  | None =>
      filter (fun o => String.eqb (classify (class o)) cat)
             (PyDict.values (objects self)) = []
  end.
Proof.
  unfold get_object_counts.
  fold (tally (PyDict.values (objects self)) PyDict.empty).
  pose proof (@tally_get cat (PyDict.values (objects self)) PyDict.empty) as H.
  destruct (PyDict.get cat (tally _ _)) as [n|].
  - destruct H as [H1 H2]; [discriminate|]. now split.
  - destruct H as [_ H]; [discriminate | exact H].
Qed.

(** * Further properties of the timelines *)

Lemma StronglySorted_app_le (A : Type) (R : A -> A -> Prop) (l1 l2 : list A) :
  StronglySorted R (l1 ++ l2) ->
  forall a b, In a l1 -> In b l2 -> R a b.
Proof.
  induction l1 as [|x l1 IH]; simpl; intros Hs a b Ha Hb; [contradiction|].
  inversion Hs as [|? ? Hs' Hall]; subst.
  destruct Ha as [->|Ha].
  - rewrite Forall_forall in Hall. apply Hall, in_or_app. now right.
  - now apply IH.
Qed.

Lemma StronglySorted_app_r (A : Type) (R : A -> A -> Prop) (l1 l2 : list A) :
  StronglySorted R (l1 ++ l2) -> StronglySorted R l2.
Proof.
  induction l1 as [|x l1 IH]; simpl; intros Hs; [exact Hs|].
  inversion Hs; subst. now apply IH.
Qed.

(** The last [n] elements of a sorted list are sorted and not below any of
    the elements before them. *)
Lemma last_n_sorted (A : Type) (key : A -> Z) (n : nat) (l : list A) :
  Sorted (PyList.key_le key) l ->
  List.length (last_n n l) = Nat.min n (List.length l)
  /\ Sorted (PyList.key_le key) (last_n n l)
  /\ (forall older recent,
      In older (firstn (List.length l - n) l) -> In recent (last_n n l) ->
      (key older <= key recent)%Z).
Proof.
  intros Hs. unfold last_n.
  split; [rewrite length_skipn; lia|].
  apply Sorted_StronglySorted in Hs; [|apply PyListFacts.key_le_trans].
  rewrite <- (firstn_skipn (List.length l - n) l) in Hs.
  split.
  - apply StronglySorted_Sorted. eapply StronglySorted_app_r. exact Hs.
  - intros older recent Ho Hr. change (PyList.key_le key older recent).
    eapply StronglySorted_app_le; eassumption.
Qed.

Section TimelineFacts.
Variable datetime : Type.
Variable fromtimestamp : Z -> result datetime.
Variable max_str_digits : nat.

Local Abbreviation int_of := (int_of max_str_digits).
Local Abbreviation dated := (dated fromtimestamp max_str_digits).
Local Abbreviation items_of := (items_of fromtimestamp max_str_digits).
Local Abbreviation skills_loop := (skills_loop fromtimestamp max_str_digits).
Local Abbreviation achievements_loop :=
  (achievements_loop fromtimestamp max_str_digits).
Local Abbreviation analyze_skills := (analyze_skills fromtimestamp max_str_digits).
Local Abbreviation analyze_achievements :=
  (analyze_achievements fromtimestamp max_str_digits).

Lemma skills_loop_app l1 : forall l2 acc,
  skills_loop (l1 ++ l2) acc
  = (skills <- skills_loop l1 acc ;; skills_loop l2 skills).
Proof.
  induction l1 as [|c l1 IH]; intros l2 acc; [reflexivity|]. simpl.
  destruct (String.eqb (ET.tag c) "int"); [|apply IH].
  destruct (int_of (ET.text c)) as [t|e]; simpl; [|reflexivity].
  destruct (fromtimestamp t) as [d|e]; simpl; [apply IH | reflexivity].
Qed.

Lemma achievements_loop_app l1 : forall l2 acc,
  achievements_loop (l1 ++ l2) acc
  = (achievements <- achievements_loop l1 acc ;; achievements_loop l2 achievements).
Proof.
  induction l1 as [|c l1 IH]; intros l2 acc; [reflexivity|]. simpl.
  destruct (String.eqb (ET.tag c) "int"); [|apply IH].
  destruct (int_of (ET.text c)) as [t|e]; simpl; [|reflexivity].
  destruct (fromtimestamp t) as [d|e]; simpl; [apply IH | reflexivity].
Qed.

Lemma skills_loop_failing_child c rest acc e :
  is_int c = true -> dated c = Raise e -> skills_loop (c :: rest) acc = Raise e.
Proof.
  unfold is_int, dated. intros Hint Hd. simpl. rewrite Hint.
  destruct (int_of (ET.text c)) as [t|e']; simpl in *; [|congruence].
  destruct (fromtimestamp t) as [d|e']; simpl in *; congruence.
Qed.

Lemma achievements_loop_failing_child c rest acc e :
  is_int c = true -> dated c = Raise e ->
  achievements_loop (c :: rest) acc = Raise e.
Proof.
  unfold is_int, dated. intros Hint Hd. simpl. rewrite Hint.
  destruct (int_of (ET.text c)) as [t|e']; simpl in *; [|congruence].
  destruct (fromtimestamp t) as [d|e']; simpl in *; congruence.
Qed.

Lemma skills_loop_first_failure before c after acc pairs e :
  items_of before pairs -> is_int c = true -> dated c = Raise e ->
  skills_loop (before ++ c :: after) acc = Raise e.
Proof.
  intros Hitems Hint Hd. rewrite skills_loop_app.
  edestruct skills_loop_ok as (new & Hloop & _); [exact Hitems|].
  rewrite Hloop. unfold bind. now apply skills_loop_failing_child.
Qed.

Lemma achievements_loop_first_failure before c after acc pairs e :
  items_of before pairs -> is_int c = true -> dated c = Raise e ->
  achievements_loop (before ++ c :: after) acc = Raise e.
Proof.
  intros Hitems Hint Hd. rewrite achievements_loop_app.
  edestruct achievements_loop_ok as (new & Hloop & _); [exact Hitems|].
  rewrite Hloop. unfold bind. now apply achievements_loop_failing_child.
Qed.

Lemma analyze_skills_sorted self key skills :
  analyze_skills self key = Return (Value skills) ->
  Sorted (PyList.key_le (@skill_timestamp datetime)) skills.
Proof.
  unfold analyze_skills. destruct (PyDict.lookup key (objects self)); [|discriminate].
  destruct (ET.find_desc_id _ _ _); [|discriminate].
  destruct (skills_loop _ _); simpl; [|discriminate].
  intros [= <-]. apply PyListFacts.sort_sorted.
Qed.

Lemma analyze_achievements_sorted self key achievements :
  analyze_achievements self key = Return (Value achievements) ->
  Sorted (PyList.key_le (@achievement_timestamp datetime)) achievements.
Proof.
  unfold analyze_achievements.
  destruct (PyDict.lookup key (objects self)); [|discriminate].
  destruct (ET.find_desc_id _ _ _); [|discriminate].
  destruct (achievements_loop _ _); simpl; [|discriminate].
  intros [= <-]. apply PyListFacts.sort_sorted.
Qed.

(** X7.  A collection node without [int] child is not a missing
    collection: [analyze_skills] and [analyze_achievements] return the empty
    list for it, not their message. *)
Theorem empty_collection_gives_empty_list (self : GlitchObjectAnalyzer)
    (key : option string) (obj : Obj) :
  PyDict.lookup key (objects self) = Some obj ->
  (forall elem,
     ET.find_desc_id (xml obj) "object" "skills" = Some elem ->
     filter is_int (ET.children elem) = [] ->
     analyze_skills self key = Return (Value []))
  /\ (forall elem,
      ET.find_desc_id (xml obj) "object" "achievements" = Some elem ->
      filter is_int (ET.children elem) = [] ->
      analyze_achievements self key = Return (Value [])).
Proof.
  intros Hobj. split; intros elem Helem Hnone.
  - assert (Hitems : items_of (ET.children elem) []).
    { unfold items_of. rewrite Hnone. constructor. }
    edestruct analyze_skills_found as (new & Hrun & Hmap & _);
      [exact Hobj | exact Helem | exact Hitems |].
    apply map_eq_nil in Hmap. now subst new.
  - assert (Hitems : items_of (ET.children elem) []).
    { unfold items_of. rewrite Hnone. constructor. }
    edestruct analyze_achievements_found as (new & Hrun & Hmap & _);
      [exact Hobj | exact Helem | exact Hitems |].
    apply map_eq_nil in Hmap. now subst new.
Qed.

(** X8.  The first [int] child that cannot be read ends the analysis with
    its exception: [TypeError] for a child without text, [ValueError] for a
    text that is not an integer literal, and otherwise the exception of the
    date conversion.  The children before it do not matter, nor do those
    after it. *)
Theorem first_unreadable_child_raises (self : GlitchObjectAnalyzer)
    (key : option string) (obj : Obj) (c : Element) (e : exn) :
  PyDict.lookup key (objects self) = Some obj ->
  is_int c = true ->
  dated c = Raise e ->
  (forall elem before after pairs,
     ET.find_desc_id (xml obj) "object" "skills" = Some elem ->
     ET.children elem = before ++ c :: after ->
     items_of before pairs ->
     analyze_skills self key = Raise e)
  /\ (forall elem before after pairs,
      ET.find_desc_id (xml obj) "object" "achievements" = Some elem ->
      ET.children elem = before ++ c :: after ->
      items_of before pairs ->
      analyze_achievements self key = Raise e)
  /\ (ET.text c = None -> e = TypeError)
  /\ (forall s, ET.text c = Some s -> PyStr.int max_str_digits s = None ->
                e = ValueError).
Proof.
  intros Hobj Hint Hd. split; [|split; [|split]].
  - intros elem before after pairs Helem Hch Hitems.
    unfold analyze_skills. rewrite Hobj, Helem, Hch.
    erewrite skills_loop_first_failure; [reflexivity | eassumption..].
  - intros elem before after pairs Helem Hch Hitems.
    unfold analyze_achievements. rewrite Hobj, Helem, Hch.
    erewrite achievements_loop_first_failure; [reflexivity | eassumption..].
  - intros Htext. unfold dated, int_of in Hd. rewrite Htext in Hd.
    simpl in Hd. congruence.
  - intros s Htext Hbad. unfold dated, int_of in Hd. rewrite Htext, Hbad in Hd.
    simpl in Hd. congruence.
Qed.

(** X9.  The records [progression] shows as recent, the last five of the
    result, are at most five, are in non-decreasing order of timestamp, and
    none of them is older than a record that is not shown. *)
Theorem recent_records_are_the_latest (self : GlitchObjectAnalyzer)
    (key : option string) :
  (forall skills,
     analyze_skills self key = Return (Value skills) ->
     List.length (last_n 5 skills) = Nat.min 5 (List.length skills)
     /\ Sorted (PyList.key_le (@skill_timestamp datetime)) (last_n 5 skills)
     /\ (forall older recent,
         In older (firstn (List.length skills - 5) skills) ->
         In recent (last_n 5 skills) ->
         (skill_timestamp older <= skill_timestamp recent)%Z))
  /\ (forall achievements,
      analyze_achievements self key = Return (Value achievements) ->
      List.length (last_n 5 achievements) = Nat.min 5 (List.length achievements)
      /\ Sorted (PyList.key_le (@achievement_timestamp datetime))
                (last_n 5 achievements)
      /\ (forall older recent,
          In older (firstn (List.length achievements - 5) achievements) ->
          In recent (last_n 5 achievements) ->
          (achievement_timestamp older <= achievement_timestamp recent)%Z)).
Proof.
  split.
  - intros skills H. apply last_n_sorted. exact (analyze_skills_sorted _ _ H).
  - intros achievements H. apply last_n_sorted.
    exact (analyze_achievements_sorted _ _ H).
Qed.

End TimelineFacts.

(** * Properties of the command line *)

Lemma insert_item_length (x : string * nat) (l : list (string * nat)) :
  List.length (insert_item x l) = S (List.length l).
Proof.
  induction l as [|y l IH]; simpl; [reflexivity|].
  destruct (item_leb x y); simpl; [reflexivity | now rewrite IH].
Qed.

Lemma sorted_items_length (l : list (string * nat)) :
  List.length (sorted_items l) = List.length l.
Proof.
  induction l as [|x l IH]; simpl; [reflexivity|].
  now rewrite insert_item_length, IH.
Qed.

(** There are never more than six counters. *)
Lemma get_object_counts_length (self : GlitchObjectAnalyzer) :
  (List.length (get_object_counts self) <= 6)%nat.
Proof.
  unfold get_object_counts.
  fold (tally (PyDict.values (objects self)) PyDict.empty).
  destruct (@tally_keys (PyDict.values (objects self)) PyDict.empty)
    as [Hnd Hin]; simpl; [constructor | tauto |].
  unfold PyDict.keys in *.
  rewrite <- (length_map fst).
  change 6%nat with (List.length categories).
  apply NoDup_incl_length; [exact Hnd | exact Hin].
Qed.

Lemma flat_map_length_le (A B : Type) (f : A -> list B) (n : nat) (l : list A) :
  (forall x, List.length (f x) <= n)%nat ->
  (List.length (flat_map f l) <= n * List.length l)%nat.
Proof.
  intros Hf. induction l as [|x l IH]; simpl; [lia|].
  rewrite length_app. specialize (Hf x). lia.
Qed.

Lemma bag_lines_length (bag : Obj) : (List.length (bag_lines bag) <= 6)%nat.
Proof.
  unfold bag_lines. cbv zeta.
  rewrite !length_app, length_map, length_firstn.
  destruct (3 <? _)%nat; simpl List.length; lia.
Qed.

(** X14.  The [summary] command calls [print] at most seventeen times,
    however many objects are loaded: three times for the titles, at most six
    times for the counters, and for the main player twice, then for at most
    five contained objects and once to tell how many more there are. *)
Theorem summary_prints_at_most_17_times (analyzer : GlitchObjectAnalyzer) :
  (List.length (summary_lines analyzer) <= 17)%nat.
Proof.
  unfold summary_lines.
  rewrite !length_app, length_map, sorted_items_length.
  pose proof (get_object_counts_length analyzer) as Hcounts.
  destruct (players analyzer) as [|player others]; [simpl; lia|].
  cbv zeta. rewrite !length_app, length_map, length_firstn.
  destruct (5 <? _)%nat; simpl List.length; lia.
Qed.

(** X15.  The [inventory] command calls [print] twice and at most six
    times for each bag, and it lists no more bags than the [Bags] counter of
    the summary. *)
Theorem inventory_prints_at_most_6_times_per_bag (analyzer : GlitchObjectAnalyzer) :
  (List.length (inventory_lines analyzer)
   <= 2 + 6 * count_of "Bags" (get_object_counts analyzer))%nat.
Proof.
  unfold inventory_lines.
  destruct (players analyzer) as [|player others]; [simpl; lia|].
  rewrite length_app. simpl List.length at 1.
  pose proof (flat_map_length_le bag_lines (bag_objects analyzer player)
                bag_lines_length) as Hlines.
  pose proof (bag_objects_length analyzer player) as Hbags.
  nia.
Qed.


(** * The order of the summary *)

Lemma insert_item_perm (x : string * nat) (l : list (string * nat)) :
  Permutation (insert_item x l) (x :: l).
Proof.
  induction l as [|y l IH]; simpl; [reflexivity|].
  destruct (item_leb x y); [reflexivity|].
  rewrite IH. apply perm_swap.
Qed.

Lemma sorted_items_perm (l : list (string * nat)) :
  Permutation (sorted_items l) l.
Proof.
  induction l as [|x l IH]; simpl; [reflexivity|].
  rewrite insert_item_perm. now constructor.
Qed.

(** The order of the tuples is total. *)
Lemma item_leb_total (x y : string * nat) :
  item_leb x y = false -> item_leb y x = true.
Proof.
  unfold item_leb. rewrite (String.compare_antisym (fst y) (fst x)).
  destruct (String.compare (fst x) (fst y)); simpl; try discriminate; trivial.
  intros H. apply Nat.leb_gt in H. apply Nat.leb_le. lia.
Qed.

Lemma insert_item_sorted (x : string * nat) (l : list (string * nat)) :
  Sorted item_le l -> Sorted item_le (insert_item x l).
Proof.
  induction 1 as [|y l Hs IH Hhd]; simpl.
  - repeat constructor.
  - destruct (item_leb x y) eqn:E.
    + repeat constructor; trivial.
    + apply item_leb_total in E. constructor; [exact IH|].
      destruct l as [|z l]; simpl.
      * now constructor.
      * destruct (item_leb x z); constructor; trivial. now inversion Hhd.
Qed.

Lemma sorted_items_sorted (l : list (string * nat)) :
  Sorted item_le (sorted_items l).
Proof.
  induction l as [|x l IH]; simpl; [constructor | now apply insert_item_sorted].
Qed.

(** On the six categories the order of the names is the order of the
    ranks. *)
Lemma item_le_rank (x y : string * nat) :
  In (fst x) categories -> In (fst y) categories -> fst x <> fst y ->
  item_le x y -> (rank (fst x) < rank (fst y))%nat.
Proof.
  unfold item_le, item_leb. destruct x as [a n], y as [b m]. simpl fst. simpl snd.
  intros Ha Hb Hne Hle. simpl in Ha, Hb.
  repeat match goal with H : _ \/ _ |- _ => destruct H as [H|H] end;
    try contradiction; subst; try congruence;
    vm_compute in Hle; try discriminate; vm_compute; lia.
Qed.

Lemma rank_lt_trans : Relations_1.Transitive rank_lt.
Proof. intros a b c. unfold rank_lt. lia. Qed.

Lemma sorted_keys_by_rank (l : list (string * nat)) :
  Sorted item_le l ->
  NoDup (map fst l) ->
  (forall k, In k (map fst l) -> In k categories) ->
  StronglySorted rank_lt (map fst l).
Proof.
  intros Hs Hnd Hin. apply Sorted_StronglySorted; [apply rank_lt_trans|].
  induction Hs as [|x l Hs IH Hhd]; simpl; [constructor|].
  inversion Hnd as [|? ? Hnotin Hnd']; subst.
  constructor.
  - apply IH; [exact Hnd'|]. intros k Hk. apply Hin. now right.
  - destruct l as [|y l]; simpl; constructor.
    inversion Hhd as [|? ? Hxy]; subst.
    apply item_le_rank; trivial.
    + apply Hin. now left.
    + apply Hin. right. now left.
    + intros E. apply Hnotin. rewrite E. now left.
Qed.

Lemma filter_none (A : Type) (p : A -> bool) (l : list A) :
  (forall x, In x l -> p x = false) -> filter p l = [].
Proof.
  induction l as [|x l IH]; simpl; intros H; [reflexivity|].
  rewrite (H x) by now left. apply IH. intros y Hy. apply H. now right.
Qed.

(** A list sorted by rank whose elements are among those of a list sorted
    by rank is that list filtered. *)
Lemma sorted_sublist_is_filter (m : list string) : forall ks,
  StronglySorted rank_lt ks -> StronglySorted rank_lt m ->
  incl ks m ->
  ks = filter (fun x => existsb (String.eqb x) ks) m.
Proof.
  induction m as [|a m IH]; intros ks Hks Hm Hincl.
  - destruct ks as [|h ks]; [reflexivity|]. destruct (Hincl h). now left.
  - inversion Hm as [|? ? Hm' Ham]; subst. rewrite Forall_forall in Ham.
    destruct ks as [|h ks]; [symmetry; now apply filter_none|].
    inversion Hks as [|? ? Hks' Hhk]; subst. rewrite Forall_forall in Hhk.
    assert (Hh : In h (a :: m)) by (apply Hincl; now left).
    destruct Hh as [<-|Hh].
    + simpl. rewrite String.eqb_refl. simpl. f_equal.
      rewrite (IH ks) at 1; trivial.
      * apply filter_ext_in. intros x Hx.
        destruct (String.eqb x a) eqn:E; [|reflexivity].
        apply String.eqb_eq in E. subst x.
        specialize (Ham _ Hx). unfold rank_lt in Ham. lia.
      * intros k Hk. destruct (Hincl k) as [<-|Hkm]; [now right| |exact Hkm].
        specialize (Hhk _ Hk). unfold rank_lt in Hhk. lia.
    + assert (Hah : rank_lt a h) by now apply Ham.
      assert (Hnot : existsb (String.eqb a) (h :: ks) = false).
      { destruct (existsb (String.eqb a) (h :: ks)) eqn:E; [|reflexivity].
        apply existsb_exists in E. destruct E as (k & Hk & E).
        apply String.eqb_eq in E. subst k. unfold rank_lt in *.
        destruct Hk as [->|Hk]; [lia|]. specialize (Hhk _ Hk). lia. }
      cbn [filter]. rewrite Hnot. apply IH; trivial.
      intros k Hk. destruct (Hincl k Hk) as [<-|Hkm]; [|exact Hkm].
      unfold rank_lt in *. destruct Hk as [->|Hk]; [lia|].
      specialize (Hhk _ Hk). lia.
Qed.

Lemma categories_in_order_sorted : StronglySorted rank_lt categories_in_order.
Proof.
  unfold categories_in_order, rank_lt.
  repeat (constructor; [|repeat constructor; vm_compute; lia]). constructor.
Qed.

Lemma occurs_key (self : GlitchObjectAnalyzer) (cat : string) :
  occurs self cat = true <-> In cat (PyDict.keys (get_object_counts self)).
Proof.
  pose proof (@tally_get cat (PyDict.values (objects self)) PyDict.empty) as H.
  unfold get_object_counts.
  fold (tally (PyDict.values (objects self)) PyDict.empty).
  unfold occurs. rewrite existsb_exists.
  destruct (PyDict.get cat (tally _ _)) as [n|] eqn:E.
  - destruct H as [H1 H2]; [discriminate|]. simpl in H2. subst n. split.
    + intros _. destruct (in_dec string_dec cat (PyDict.keys (tally (PyDict.values (objects self)) PyDict.empty))) as [Hin|Hin];
        [exact Hin|].
      apply PyDictFacts.get_None_keys in Hin. congruence.
    + intros _.
      destruct (filter (fun o => String.eqb (classify (class o)) cat)
                       (PyDict.values (objects self))) as [|o l] eqn:Hf;
        [simpl in H1; lia|].
      assert (Ho : In o (o :: l)) by now left.
      rewrite <- Hf in Ho. apply filter_In in Ho. now exists o.
  - destruct H as [_ H]; [discriminate|]. split.
    + intros (o & Ho & Hc). exfalso.
      assert (Hin : In o (filter (fun o => String.eqb (classify (class o)) cat)
                                 (PyDict.values (objects self))))
        by (apply filter_In; auto).
      rewrite H in Hin. exact Hin.
    + intros Hin. apply PyDictFacts.get_None_keys in E. contradiction.
Qed.

(** X16.  The breakdown of the [summary] command lists the categories
    that have an object, and only those, in the order of their names: Bags,
    Data Containers, Groups, Items, Players, Trees/Plants.  Sorting the
    counters changes their order only. *)
Theorem summary_breakdown_is_in_name_order (self : GlitchObjectAnalyzer) :
  map fst (sorted_items (get_object_counts self))
  = filter (occurs self) categories_in_order
  /\ Permutation (sorted_items (get_object_counts self)) (get_object_counts self).
Proof.
  split; [|apply sorted_items_perm].
  set (counts := get_object_counts self).
  assert (Hperm : Permutation (map fst (sorted_items counts)) (PyDict.keys counts))
    by (apply Permutation_map, sorted_items_perm).
  assert (Hkeys : NoDup (PyDict.keys counts)
                  /\ forall k, In k (PyDict.keys counts) -> In k categories).
  { unfold counts, get_object_counts.
    fold (tally (PyDict.values (objects self)) PyDict.empty).
    apply tally_keys; simpl; [constructor | tauto]. }
  destruct Hkeys as [Hnd Hin].
  assert (Hnd' : NoDup (map fst (sorted_items counts)))
    by (eapply Permutation_NoDup; [symmetry; exact Hperm | exact Hnd]).
  assert (Hin' : forall k, In k (map fst (sorted_items counts)) -> In k categories).
  { intros k Hk. apply Hin. eapply Permutation_in; eassumption. }
  rewrite (sorted_sublist_is_filter (m := categories_in_order)
             (ks := map fst (sorted_items counts))).
  - apply filter_ext. intros cat.
    destruct (occurs self cat) eqn:Ho.
    + apply occurs_key in Ho. apply existsb_exists. exists cat.
      split; [|apply String.eqb_refl].
      eapply Permutation_in; [symmetry; exact Hperm | exact Ho].
    + destruct (existsb _ _) eqn:E; [|reflexivity].
      apply existsb_exists in E. destruct E as (k & Hk & E).
      apply String.eqb_eq in E. subst k.
      assert (Hkey : In cat (PyDict.keys counts))
        by (eapply Permutation_in; eassumption).
      apply occurs_key in Hkey. congruence.
  - apply sorted_keys_by_rank; trivial. apply sorted_items_sorted.
  - apply categories_in_order_sorted.
  - intros k Hk. specialize (Hin' k Hk). unfold categories in Hin'.
    unfold categories_in_order. simpl in *. tauto.
Qed.

(** * Directories without player *)

Lemma players_nil (self : GlitchObjectAnalyzer) :
  PyDict.get "Players" (get_object_counts self) = None -> players self = [].
Proof.
  intros Hnone.
  pose proof (@tally_get "Players" (PyDict.values (objects self)) PyDict.empty) as H.
  unfold get_object_counts in Hnone.
  fold (tally (PyDict.values (objects self)) PyDict.empty) in Hnone.
  rewrite Hnone in H. destruct H as [_ H]; [discriminate|].
  unfold players. rewrite <- H. apply filter_ext. intros o.
  symmetry. apply classify_Players.
Qed.

Section NoPlayerFacts.
Variable datetime : Type.
Variable fromtimestamp : Z -> result datetime.
Variable max_str_digits : nat.
Variable strftime_ymd : datetime -> string.

(** X18.  When the counts have no [Players] entry, the [progression] and
    [inventory] commands print [No player object found] and nothing else,
    and the [summary] command ends after the breakdown. *)
Theorem commands_without_player (analyzer : GlitchObjectAnalyzer) :
  PyDict.get "Players" (get_object_counts analyzer) = None ->
  progression_lines fromtimestamp max_str_digits strftime_ymd analyzer
  = (["No player object found"], None)
  /\ inventory_lines analyzer = ["No player object found"]
  /\ List.length (summary_lines analyzer)
     = (3 + List.length (get_object_counts analyzer))%nat.
Proof.
  intros Hnone. apply players_nil in Hnone.
  unfold progression_lines, inventory_lines, summary_lines. rewrite Hnone.
  repeat split.
  rewrite !length_app, length_map, sorted_items_length. simpl. lia.
Qed.

End NoPlayerFacts.

(** * The further properties at work on the sample data *)

Lemma load_objects_keeps_listing_order_witness :
  NoDup Sample.listing
  /\ PyDict.keys (objects Sample.analyzer) = ["PHUMAN1"; "BBAG1"; "SKILLS1"].
Proof.
  assert (Hnd : NoDup Sample.listing).
  { unfold Sample.listing. repeat constructor; simpl; intuition discriminate. }
  split; [exact Hnd|].
  unfold Sample.analyzer.
  rewrite (load_objects_keeps_listing_order Sample.max_str_digits Sample.ET_parse Hnd).
  reflexivity.
Defined.

Lemma stored_object_comes_from_its_file_witness :
  In "BBAG1.xml" Sample.listing
  /\ exists obj,
       PyDict.get "BBAG1" (objects Sample.analyzer) = Some obj
       /\ parse_object Sample.max_str_digits Sample.ET_parse "BBAG1.xml"
          = Return obj.
Proof.
  destruct (@stored_object_comes_from_its_file
              Sample.max_str_digits Sample.ET_parse Sample.listing "BBAG1"
              (mkObj (Some "BBAG1") "Large Bag" "bag_large" 1325376000001
                     (Some "PHUMAN1") Sample.bag_root) eq_refl) as [Hin Hparse].
  split; [exact Hin|]. eexists. split; [reflexivity | exact Hparse].
Defined.

Lemma empty_collection_witness :
  analyze_skills Sample.fromtimestamp Sample.max_str_digits
    Demo.novice_analyzer (Some "SKILLS3") = Return (Value []).
Proof.
  destruct (@empty_collection_gives_empty_list Z Sample.fromtimestamp
              Sample.max_str_digits Demo.novice_analyzer (Some "SKILLS3")
              Demo.novice_obj eq_refl) as [Hskills _].
  exact (Hskills _ eq_refl eq_refl).
Defined.

Lemma first_unreadable_child_witness :
  PyStr.int Sample.max_str_digits "soon" = None
  /\ analyze_skills Sample.fromtimestamp Sample.max_str_digits
       Demo.bad_skill_analyzer (Some "SKILLS2") = Raise ValueError.
Proof.
  split; [reflexivity|].
  destruct (@first_unreadable_child_raises Z Sample.fromtimestamp
              Sample.max_str_digits Demo.bad_skill_analyzer (Some "SKILLS2")
              (mkObj (Some "SKILLS2") "Unknown" "dc" 0 None Sample.bad_skill_root)
              (Elem "int" [("id", "A")] (Some "soon") []) ValueError
              eq_refl eq_refl eq_refl) as [Hskills _].
  apply (Hskills _ [] [] [] eq_refl eq_refl). constructor.
Defined.

Lemma commands_without_player_witness :
  PyDict.get "Players" (get_object_counts Demo.bag_only_analyzer) = None
  /\ inventory_lines Demo.bag_only_analyzer = ["No player object found"].
Proof.
  split; [reflexivity|].
  destruct (@commands_without_player Z Sample.fromtimestamp
              Sample.max_str_digits Demo.strftime_ymd Demo.bag_only_analyzer
              eq_refl) as (_ & Hinv & _).
  exact Hinv.
Defined.

(** The [player] command on the sample directory, for an identifier that is
    not loaded: the error lines of the load, then the answer. *)
Example scenario_main_player_not_found :
  main Sample.fromtimestamp Sample.fromtimestamp_ms Sample.max_str_digits
       Sample.ET_parse Demo.str_datetime Demo.strftime_ymd
       ["analyze_objects.py"; "player"; "NOPE"] Sample.listing
  = ([LoadError (ErrorLoading "BROKEN.xml" XMLParseError);
      LoadError (ErrorLoading "IBADTS1.xml" ValueError);
      Text "Player NOPE not found"], None).
Proof. reflexivity. Qed.
